(** * Order extraction and order lifecycle of the WhatsApp delivery bot

    A shallow embedding of the order parser ([src/services/OrderParser.js]),
    the phone helpers ([src/utils/helpers.js]), the order store
    ([src/services/OrderService.js]) and the command handling of
    [src/services/WhatsAppService.js], with the properties of the
    specification stated and settled against it.

    Strings are sequences of 8-bit code units (the Latin-1 range of the
    UTF-16 code units of a JavaScript string).  The database is an explicit
    state threaded through the order-service functions; every awaited query
    is one atomic step on that state. *)

From Stdlib Require Import Ascii String List Arith Bool Lia.
From stdpp Require Import gmap strings list.

Local Open Scope bool_scope.

(** ** JavaScript string primitives *)

Module Js.

Definition code (c : ascii) : nat := nat_of_ascii c.

(** [\d] *)
Definition isDigit (c : ascii) : bool :=
  (48 <=? code c) && (code c <=? 57).

(** [[A-Za-z]] *)
Definition isAlpha (c : ascii) : bool :=
  ((65 <=? code c) && (code c <=? 90)) || ((97 <=? code c) && (code c <=? 122)).

(** [\w] is [[A-Za-z0-9_]] *)
Definition isWord (c : ascii) : bool :=
  isAlpha c || isDigit c || (code c =? 95).

(** [\s], also the characters removed by [trim]: TAB, LF, VT, FF, CR, SP
    and NBSP are the white space and line terminators below 256. *)
Definition isSpace (c : ascii) : bool :=
  ((9 <=? code c) && (code c <=? 13)) || (code c =? 32) || (code c =? 160).

(** [.] matches everything but a line terminator. *)
Definition isDot (c : ascii) : bool :=
  negb ((code c =? 10) || (code c =? 13)).

(** One character of [toLowerCase]: A-Z, and the upper-case letters of
    Latin-1 (192..222 without the multiplication sign 215). *)
Definition lowerChar (c : ascii) : ascii :=
  let n := code c in
  if ((65 <=? n) && (n <=? 90))
     || ((192 <=? n) && (n <=? 222) && negb (n =? 215))
  then ascii_of_nat (n + 32) else c.

Fixpoint toLowerCase (s : string) : string :=
  match s with
  | EmptyString => EmptyString
  | String c s' => String (lowerChar c) (toLowerCase s')
  end.

(** [s.replace(/P/g, '')] for a one-character class P: keep the others. *)
Fixpoint keep (p : ascii -> bool) (s : string) : string :=
  match s with
  | EmptyString => EmptyString
  | String c s' => if p c then String c (keep p s') else keep p s'
  end.

(** [s.startsWith(p)] *)
Fixpoint startsWith (s p : string) {struct p} : bool :=
  match p, s with
  | EmptyString, _ => true
  | String _ _, EmptyString => false
  | String a p', String b s' => Ascii.eqb a b && startsWith s' p'
  end.

(** [s.substring(n)] *)
Fixpoint substring (n : nat) (s : string) : string :=
  match n, s with
  | O, _ => s
  | S _, EmptyString => EmptyString
  | S n', String _ s' => substring n' s'
  end.

(** [s.includes(p)] *)
Fixpoint includes (s p : string) : bool :=
  startsWith s p ||
  match s with
  | EmptyString => false
  | String _ s' => includes s' p
  end.

(** [s.replace(p, '')] with a string pattern: the first occurrence of [p]
    is removed. *)
Fixpoint removeFirst (s p : string) : string :=
  if startsWith s p then substring (String.length p) s
  else match s with
       | EmptyString => EmptyString
       | String c s' => String c (removeFirst s' p)
       end.

Fixpoint trimStart (s : string) : string :=
  match s with
  | EmptyString => EmptyString
  | String c s' => if isSpace c then trimStart s' else s
  end.

Fixpoint trimEnd (s : string) : string :=
  match s with
  | EmptyString => EmptyString
  | String c s' =>
      match trimEnd s' with
      | EmptyString => if isSpace c then EmptyString else String c EmptyString
      | t => String c t
      end
  end.

(** [s.trim()] *)
Definition trim (s : string) : string := trimEnd (trimStart s).

(** [s.split(sep)] for a one-character separator; never the empty list. *)
Fixpoint split (sep : ascii) (s : string) : list string :=
  match s with
  | EmptyString => [EmptyString]
  | String c s' =>
      if Ascii.eqb c sep then EmptyString :: split sep s'
      else match split sep s' with
           | [] => [String c EmptyString]
           | w :: ws => String c w :: ws
           end
  end.

(** A string is truthy when it is not empty. *)
Definition truthy (s : string) : bool :=
  match s with EmptyString => false | _ => true end.

End Js.

(** ** Completions

    A call either returns normally or throws. *)

Module Completion.

Inductive completion (A : Type) : Type :=
| Normal (a : A)
| Throw (error : string).
Arguments Normal {A} a.
Arguments Throw {A} error.

Definition bind {A B : Type} (c : completion A) (k : A -> completion B)
  : completion B :=
  match c with
  | Normal a => k a
  | Throw e => Throw e
  end.

Definition threw {A : Type} (c : completion A) : bool :=
  match c with
  | Normal _ => false
  | Throw _ => true
  end.

End Completion.

(** ** Phone helpers ([src/utils/helpers.js]) *)

Module Helpers.

(** [phone.replace(/\D/g, '')] *)
Definition cleaned (phone : string) : string := Js.keep Js.isDigit phone.

Definition formatPhoneNumber (phone : string) : string :=
  let cleaned := cleaned phone in
  if Js.startsWith cleaned "0" then "+234" +:+ Js.substring 1 cleaned
  else if negb (Js.startsWith cleaned "234") then "+234" +:+ cleaned
  else "+" +:+ cleaned.

(** The normalization as the specification words it, one step after the
    other: strip, replace a leading 0, prepend the country code when it is
    not there, prefix with a plus sign. *)
Definition normalize_spec (phone : string) : string :=
  let digits := Js.keep Js.isDigit phone in
  let digits := if Js.startsWith digits "0"
                then "234" +:+ Js.substring 1 digits else digits in
  let digits := if Js.startsWith digits "234"
                then digits else "234" +:+ digits in
  "+" +:+ digits.

(** [Math.floor(Math.random() * 1000).toString().padStart(3, '0')] for the
    drawn integer [r] below 1000. *)
Definition digitChar (n : nat) : ascii := ascii_of_nat (48 + n mod 10).

Definition pad3 (r : nat) : string :=
  String (digitChar (r / 100))
    (String (digitChar (r / 10)) (String (digitChar r) EmptyString)).

(** [generateOrderId]: [date] is the day as [moment().format('YYYYMMDD')]
    prints it and [r] the random draw. *)
Definition generateOrderId (date : string) (r : nat) : string :=
  "ORD" +:+ date +:+ pad3 r.

End Helpers.

(** ** Regular expressions

    The patterns of the parser use no back-references and no look-around, so
    [pattern.test(text)] asks whether some substring of [text] belongs to the
    language of the pattern.  [residuals r s] lists what can be left of [s]
    after [r] has consumed a prefix of it. *)

Module Regex.

Inductive re : Type :=
| Chr (p : ascii -> bool)   (* one character of a class *)
| Eps                       (* the empty pattern *)
| Eos                       (* [$] *)
| Seq (a b : re)
| Alt (a b : re)
| Star (a : re).

Definition Plus (a : re) : re := Seq a (Star a).

(** [a{n}] *)
Fixpoint Times (n : nat) (a : re) : re :=
  match n with
  | O => Eps
  | S n' => Seq a (Times n' a)
  end.

(** [a{0,n}] *)
Fixpoint UpTo (n : nat) (a : re) : re :=
  match n with
  | O => Eps
  | S n' => Alt (Seq a (UpTo n' a)) Eps
  end.

(** [a{lo,hi}] and [a{n,}] *)
Definition Between (lo hi : nat) (a : re) : re := Seq (Times lo a) (UpTo (hi - lo) a).
Definition AtLeast (n : nat) (a : re) : re := Seq (Times n a) (Star a).

(** A literal, and a literal under the [i] flag. *)
Fixpoint Lit (s : string) : re :=
  match s with
  | EmptyString => Eps
  | String c s' => Seq (Chr (Ascii.eqb c)) (Lit s')
  end.

Fixpoint LitI (s : string) : re :=
  match s with
  | EmptyString => Eps
  | String c s' =>
      Seq (Chr (fun x => Ascii.eqb (Js.lowerChar x) (Js.lowerChar c))) (LitI s')
  end.

(** [(?:w1|w2|...)] under the [i] flag *)
Fixpoint AnyOfI (ws : list string) : re :=
  match ws with
  | [] => Chr (fun _ => false)
  | [w] => LitI w
  | w :: ws' => Alt (LitI w) (AnyOfI ws')
  end.

(** Iterations of [f] from [s]; an iteration that consumes nothing adds
    nothing, so only shorter residuals are followed and [fuel], the length
    of the text, is never exhausted. *)
Fixpoint starFrom (f : string -> list string) (fuel : nat) (s : string)
  : list string :=
  s :: match fuel with
       | O => []
       | S n =>
           List.flat_map (starFrom f n)
             (List.filter (fun t => String.length t <? String.length s) (f s))
       end.

Fixpoint residuals (r : re) (s : string) : list string :=
  match r with
  | Chr p => match s with
             | String c s' => if p c then [s'] else []
             | EmptyString => []
             end
  | Eps => [s]
  | Eos => match s with EmptyString => [s] | _ => [] end
  | Seq a b => List.flat_map (residuals b) (residuals a s)
  | Alt a b => residuals a s ++ residuals b s
  | Star a => starFrom (residuals a) (String.length s) s
  end.

Definition matchesAt (r : re) (s : string) : bool :=
  match residuals r s with [] => false | _ => true end.

(** The search of an unanchored pattern tries every start position. *)
Fixpoint matchesSomewhere (r : re) (s : string) : bool :=
  matchesAt r s ||
  match s with
  | EmptyString => false
  | String _ s' => matchesSomewhere r s'
  end.

(** A pattern: its body, and whether it starts with [^]. *)
Record pattern : Type := Pattern { anchored : bool; body : re }.

Definition test (p : pattern) (text : string) : bool :=
  if anchored p then matchesAt (body p) text
  else matchesSomewhere (body p) text.

Definition digit : re := Chr Js.isDigit.
Definition space : re := Chr Js.isSpace.
Definition alpha : re := Chr Js.isAlpha.
Definition dot : re := Chr Js.isDot.
Definition chr (c : ascii) : re := Chr (Ascii.eqb c).

End Regex.

(** ** The order parser ([src/services/OrderParser.js]) *)

Module OrderParser.
Import Regex Completion.

(** What [moment] gives the parser: the current day and the next one in
    the format YYYY-MM-DD, and the strict parse of a text against a format,
    printed as YYYY-MM-DD when it is valid. *)
Record Moment : Type := {
  today : string;
  tomorrow : string;
  strictParse : string -> string -> option string
}.

(** The result object of the three extractors; a property that was never
    set, or set to [null], is [None]. *)
Record fields : Type := Fields {
  customerName : option string;
  phoneNumber : option string;
  address : option string;
  items : option string;
  deliveryDate : option string
}.

Definition noFields : fields := Fields None None None None None.

Definition setCustomerName (v : option string) (r : fields) : fields :=
  Fields v (phoneNumber r) (address r) (items r) (deliveryDate r).
Definition setPhoneNumber (v : option string) (r : fields) : fields :=
  Fields (customerName r) v (address r) (items r) (deliveryDate r).
Definition setAddress (v : option string) (r : fields) : fields :=
  Fields (customerName r) (phoneNumber r) v (items r) (deliveryDate r).
Definition setItems (v : option string) (r : fields) : fields :=
  Fields (customerName r) (phoneNumber r) (address r) v (deliveryDate r).
Definition setDeliveryDate (v : option string) (r : fields) : fields :=
  Fields (customerName r) (phoneNumber r) (address r) (items r) v.

(** The order data [parseOrder] returns. *)
Record draft : Type := Draft {
  draftName : string;
  draftPhone : string;
  draftAddress : string;
  draftItems : string;
  draftDate : option string;
  addedBy : string
}.

(** [if (v) ...] on a property that may be undefined, null or a string *)
Definition truthy (v : option string) : bool :=
  match v with
  | Some s => Js.truthy s
  | None => false
  end.

(** *** Date lines *)

Definition datePatterns : list pattern :=
  [ Pattern false (Seq (Between 1 2 digit) (Seq (chr "/") (Seq (Between 1 2 digit)
                    (Seq (chr "/") (Times 4 digit)))));
    Pattern false (Seq (Between 1 2 digit) (Seq (chr "-") (Seq (Between 1 2 digit)
                    (Seq (chr "-") (Times 4 digit)))));
    Pattern false (Seq (Times 4 digit) (Seq (chr "-") (Seq (Between 1 2 digit)
                    (Seq (chr "-") (Between 1 2 digit)))));
    Pattern false (AnyOfI ["tomorrow"; "today"]);
    Pattern false (AnyOfI ["monday"; "tuesday"; "wednesday"; "thursday";
                           "friday"; "saturday"; "sunday"]) ].

Definition isDateString (str : string) : bool :=
  existsb (fun p => test p str) datePatterns.

Definition dateFormats : list string :=
  ["DD/MM/YYYY"; "MM/DD/YYYY"; "YYYY-MM-DD"; "DD-MM-YYYY"].

Fixpoint firstValid (m : Moment) (dateStr : string) (formats : list string)
  : option string :=
  match formats with
  | [] => None
  | format :: rest =>
      match strictParse m format dateStr with
      | Some parsed => Some parsed
      | None => firstValid m dateStr rest
      end
  end.

Definition parseDate (m : Moment) (dateStr : string) : option string :=
  if test (Pattern false (LitI "tomorrow")) dateStr then Some (tomorrow m)
  else if test (Pattern false (LitI "today")) dateStr then Some (today m)
  else firstValid m dateStr dateFormats.

(** *** Phone lines *)

Definition isPhoneNumber (str : string) : bool :=
  let cleaned := Js.keep Js.isDigit str in
  if (String.length cleaned <? 10) || (15 <? String.length cleaned) then false
  else Js.startsWith cleaned "0"
       || Js.startsWith cleaned "234"
       || Js.startsWith cleaned "1"
       || (10 <=? String.length cleaned).

(** The number of digit characters of a string. *)
Fixpoint digitCount (s : string) : nat :=
  match s with
  | EmptyString => 0
  | String c s' => (if Js.isDigit c then 1 else 0) + digitCount s'
  end.

(** *** Labeled lines *)

(** [line.split(':')[1].trim()]: the second piece of the split; where there
    is none, [undefined.trim()] throws a TypeError. *)
Definition afterColon (line : string) : completion string :=
  match nth_error (Js.split ":" line) 1 with
  | Some piece => Normal (Js.trim piece)
  | None => Throw "TypeError"
  end.

(** The value as the specification words it: the entire text after the
    first colon, trimmed. *)
Fixpoint restAfterFirstColon (line : string) : string :=
  match line with
  | EmptyString => EmptyString
  | String c rest => if Ascii.eqb c ":" then rest else restAfterFirstColon rest
  end.

Definition textAfterFirstColon (line : string) : string :=
  Js.trim (restAfterFirstColon line).

Definition labeledLine (m : Moment) (result : fields) (line : string)
  : completion fields :=
  let lowerLine := Js.toLowerCase line in
  if Js.startsWith lowerLine "name:" then
    Normal (setCustomerName (Some (Js.trim (Js.substring 5 line))) result)
  else if Js.includes lowerLine "phone" && Js.includes lowerLine ":" then
    bind (afterColon line) (fun v => Normal (setPhoneNumber (Some v) result))
  else if Js.startsWith lowerLine "address:" then
    Normal (setAddress (Some (Js.trim (Js.substring 8 line))) result)
  else if Js.includes lowerLine "item" && Js.includes lowerLine ":" then
    bind (afterColon line) (fun v => Normal (setItems (Some v) result))
  else if isDateString line then
    Normal (setDeliveryDate (parseDate m line) result)
  else Normal result.

Fixpoint labeledLoop (m : Moment) (result : fields) (lines : list string)
  : completion fields :=
  match lines with
  | [] => Normal result
  | line :: rest => bind (labeledLine m result line) (fun r => labeledLoop m r rest)
  end.

Definition parseLabeledFormat (m : Moment) (lines : list string)
  : completion fields :=
  labeledLoop m noFields lines.

(** *** Unlabeled lines: scoring *)

Definition namePatterns : list pattern :=
  [ Pattern true (Seq (Between 2 50 (Chr (fun c => Js.isAlpha c || Js.isSpace c))) Eos);
    Pattern true (Seq (Plus alpha) (Seq (Plus space) (Plus alpha))) ].

Definition addressPatterns : list pattern :=
  [ Pattern false
      (Seq (Plus digit)
         (Seq (Star dot)
            (AnyOfI ["street"; "road"; "avenue"; "lane"; "close"; "way";
                     "estate"; "island"; "mainland"])));
    Pattern false (Seq (Alt (LitI "no.") (LitI "number")) (Seq (Star space) (Plus digit)));
    Pattern false (Seq (Plus digit) (Chr (fun c => Ascii.eqb c "," || Js.isSpace c)));
    Pattern false (AtLeast 20 dot) ].

Definition itemPatterns : list pattern :=
  [ Pattern false
      (AnyOfI ["cake"; "food"; "pizza"; "burger"; "rice"; "chicken"; "beef";
               "fish"; "drink"; "water"; "juice"]);
    Pattern false
      (Seq (Plus digit)
         (Seq (Star space) (AnyOfI ["pack"; "piece"; "bottle"; "plate"; "portion"])));
    Pattern false
      (Alt (Seq (Plus digit) (Seq (Star space) (Seq (chr "x") (Star space))))
           (Seq (Plus digit) (Plus space))) ].

Fixpoint calculatePatternScore (text : string) (patterns : list pattern) : nat :=
  match patterns with
  | [] => 0
  | p :: rest =>
      (if test p text then 1 else 0) + calculatePatternScore text rest
  end.

Inductive fieldType : Type := TName | TAddress | TItems.

Record candidate : Type := Candidate {
  line : string;
  nameScore : nat;
  addressScore : nat;
  itemScore : nat;
  index : nat;
  maxScore : nat;
  bestType : fieldType
}.

Definition candidateOf (index : nat) (line : string) : candidate :=
  let nameScore := calculatePatternScore line namePatterns in
  let addressScore := calculatePatternScore line addressPatterns in
  let itemScore := calculatePatternScore line itemPatterns in
  Candidate line nameScore addressScore itemScore index
    (Nat.max nameScore (Nat.max addressScore itemScore))
    (if (addressScore <=? nameScore) && (itemScore <=? nameScore) then TName
     else if itemScore <=? addressScore then TAddress
     else TItems).

(** [sort((a, b) => b.maxScore - a.maxScore)]: descending, and stable as
    [Array.prototype.sort] is. *)
Fixpoint insertByConfidence (x : candidate) (l : list candidate) : list candidate :=
  match l with
  | [] => [x]
  | y :: ys =>
      if maxScore x <? maxScore y then y :: insertByConfidence x ys
      else x :: y :: ys
  end.

Fixpoint sortByConfidence (l : list candidate) : list candidate :=
  match l with
  | [] => []
  | x :: xs => insertByConfidence x (sortByConfidence xs)
  end.

Record assignedFlags : Type := Assigned {
  nameAssigned : bool;
  addressAssigned : bool;
  itemsAssigned : bool
}.

Definition assignBest (st : fields * assignedFlags) (item : candidate)
  : fields * assignedFlags :=
  let (result, assigned) := st in
  match bestType item with
  | TName =>
      if negb (nameAssigned assigned)
      then (setCustomerName (Some (line item)) result,
            Assigned true (addressAssigned assigned) (itemsAssigned assigned))
      else st
  | TAddress =>
      if negb (addressAssigned assigned)
      then (setAddress (Some (line item)) result,
            Assigned (nameAssigned assigned) true (itemsAssigned assigned))
      else st
  | TItems =>
      if negb (itemsAssigned assigned)
      then (setItems (Some (line item)) result,
            Assigned (nameAssigned assigned) (addressAssigned assigned) true)
      else st
  end.

(** [line !== value] for a value that may be undefined *)
Definition differs (line : string) (value : option string) : bool :=
  match value with
  | Some v => negb (String.eqb line v)
  | None => true
  end.

Definition assignRemainingFields (lines : list string) : fields :=
  let sortedByConfidence :=
    sortByConfidence (map (fun p => candidateOf (fst p) (snd p))
                        (combine (seq 0 (length lines)) lines)) in
  let (result, assigned) :=
    fold_left assignBest sortedByConfidence (noFields, Assigned false false false) in
  let unassignedLines :=
    List.filter (fun line => differs line (customerName result)
                             && differs line (address result)
                             && differs line (items result)) lines in
  let unassignedIndex := 0 in
  let (result, unassignedIndex) :=
    if negb (nameAssigned assigned) && (unassignedIndex <? length unassignedLines)
    then (setCustomerName (nth_error unassignedLines unassignedIndex) result,
          S unassignedIndex)
    else (result, unassignedIndex) in
  let (result, unassignedIndex) :=
    if negb (addressAssigned assigned) && (unassignedIndex <? length unassignedLines)
    then (setAddress (nth_error unassignedLines unassignedIndex) result,
          S unassignedIndex)
    else (result, unassignedIndex) in
  let (result, unassignedIndex) :=
    if negb (itemsAssigned assigned) && (unassignedIndex <? length unassignedLines)
    then (setItems (nth_error unassignedLines unassignedIndex) result,
          S unassignedIndex)
    else (result, unassignedIndex) in
  result.

(** *** Unlabeled lines: phone, date and the rest *)

(** The copy of the assigned fields into the result, each under its
    [if (assignments.f)]. *)
Definition takeAssignments (assignments result : fields) : fields :=
  let result := if truthy (customerName assignments)
                then setCustomerName (customerName assignments) result else result in
  let result := if truthy (address assignments)
                then setAddress (address assignments) result else result in
  let result := if truthy (items assignments)
                then setItems (items assignments) result else result in
  result.

Definition dateStep (m : Moment) (st : fields * gset nat) (entry : nat * string)
  : fields * gset nat :=
  let (result, usedLines) := st in
  let (index, line) := entry in
  if isDateString line && negb (bool_decide (index ∈ usedLines))
  then (setDeliveryDate (parseDate m line) result, usedLines ∪ {[index]})
  else st.

(** The lines of the message that are neither the phone line nor a date
    line, in their order. *)
Definition usedByPhoneAndDate (m : Moment) (lines : list string) : fields * gset nat :=
  let indexed := combine (seq 0 (length lines)) lines in
  let phoneNumbers := List.filter (fun e => isPhoneNumber (snd e)) indexed in
  let st :=
    match phoneNumbers with
    | first :: _ => (setPhoneNumber (Some (Js.trim (snd first))) noFields, {[fst first]})
    | [] => (noFields, ∅)
    end in
  fold_left (dateStep m) indexed st.

Definition remainingLines (m : Moment) (lines : list string) : list string :=
  let usedLines := snd (usedByPhoneAndDate m lines) in
  map snd (List.filter (fun e => negb (bool_decide (fst e ∈ usedLines)))
             (combine (seq 0 (length lines)) lines)).

Definition parseUnlabeledFormat (m : Moment) (lines : list string) : fields :=
  let result := fst (usedByPhoneAndDate m lines) in
  let remainingLines := remainingLines m lines in
  if 3 <=? length remainingLines then
    takeAssignments (assignRemainingFields remainingLines) result
  else if 2 <=? length remainingLines then
    if length remainingLines =? 3 then
      setItems (nth_error remainingLines 2)
        (setAddress (nth_error remainingLines 1)
           (setCustomerName (nth_error remainingLines 0) result))
    else if length remainingLines =? 2 then
      takeAssignments (assignRemainingFields remainingLines) result
    else result
  else result.

(** *** The entry point *)

(** [messageBody.trim().split('\n').map(line => line.trim()).filter(line => line)] *)
Definition messageLines (messageBody : string) : list string :=
  List.filter Js.truthy (map Js.trim (Js.split "010" (Js.trim messageBody))).

(** [if (from.f) f = from.f] on a field that is still null *)
Definition fromLabeled (v : option string) : option string :=
  if truthy v then v else None.

(** [if (!f && from.f) f = from.f] *)
Definition fromUnlabeled (current v : option string) : option string :=
  if negb (truthy current) && truthy v then v else current.

Definition incomplete (r : fields) : bool :=
  negb (truthy (customerName r)) || negb (truthy (phoneNumber r))
  || negb (truthy (address r)) || negb (truthy (items r)).

(** The fields after the two passes. *)
Definition mergeFields (m : Moment) (lines : list string) (labeledData : fields)
  : fields :=
  let merged := Fields (fromLabeled (customerName labeledData))
                       (fromLabeled (phoneNumber labeledData))
                       (fromLabeled (address labeledData))
                       (fromLabeled (items labeledData))
                       (fromLabeled (deliveryDate labeledData)) in
  if incomplete merged then
    let unlabeledData := parseUnlabeledFormat m lines in
    Fields (fromUnlabeled (customerName merged) (customerName unlabeledData))
           (fromUnlabeled (phoneNumber merged) (phoneNumber unlabeledData))
           (fromUnlabeled (address merged) (address unlabeledData))
           (fromUnlabeled (items merged) (items unlabeledData))
           (fromUnlabeled (deliveryDate merged) (deliveryDate unlabeledData))
  else merged.

(** The body of the [try] block of [parseOrder]. *)
Definition parseOrderTry (m : Moment) (messageBody senderName : string)
  : completion (option draft) :=
  let lines := messageLines messageBody in
  if length lines <? 3 then Normal None
  else
    bind (parseLabeledFormat m lines) (fun labeledData =>
      let merged := mergeFields m lines labeledData in
      match customerName merged, phoneNumber merged, address merged, items merged with
      | Some customerName, Some phoneNumber, Some address, Some items =>
          if incomplete merged then Normal None
          else Normal (Some (Draft (Js.trim customerName) (Js.trim phoneNumber)
                               (Js.trim address) (Js.trim items)
                               (deliveryDate merged) senderName))
      | _, _, _, _ => Normal None
      end).

(** [parseOrder]: the [catch] turns whatever the body throws into [null]. *)
Definition parseOrder (m : Moment) (messageBody senderName : string) : option draft :=
  match parseOrderTry m messageBody senderName with
  | Normal result => result
  | Throw _ => None
  end.

(** *** Predicates of the properties *)

(** A value that is not empty and has no white space around it. *)
Definition filled (v : string) : Prop := v <> EmptyString /\ Js.trim v = v.

Definition fieldTrimmed (o : option string) : Prop :=
  forall v : string, o = Some v -> Js.trim v = v.

Definition fieldFilled (o : option string) : Prop :=
  forall v : string, o = Some v -> filled v.

Definition fieldFrom (lines : list string) (o : option string) : Prop :=
  forall v : string, o = Some v -> In v lines.

(** The three fields of the scoring hold lines of [L]. *)
Definition threeFrom (L : list string) (r : fields) : Prop :=
  fieldFrom L (customerName r) /\ fieldFrom L (address r) /\ fieldFrom L (items r).

(** The four text fields of a result satisfy [P]. *)
Definition textFields (P : option string -> Prop) (r : fields) : Prop :=
  P (customerName r) /\ P (phoneNumber r) /\ P (address r) /\ P (items r).

End OrderParser.

(** ** The order store ([src/config/database.js], [src/services/OrderService.js])

    The two tables are the state; a query is one atomic step on it.  The
    unique constraint on [order_id] is part of the step.  Every other way a
    query can fail (a lost connection, another constraint of the schema) is
    the environment's choice: [faults] holds, query after query, whether the
    next one fails, and an exhausted list means no failure. *)

Module OrderService.
Import Completion.

(** A row of [orders]. *)
Record order : Type := Order {
  order_id : string;
  customer_name : string;
  phone_number : string;
  address : string;
  items : string;
  delivery_date : option string;
  status : string;
  added_by : string;
  delivery_person : option string;
  created_at : nat;
  delivered_at : option nat;
  cancelled_at : option nat
}.

(** A row of [order_history]. *)
Record historyEntry : Type := History {
  history_order_id : string;
  history_status : string;
  changed_by : string;
  timestamp : nat;
  notes : string
}.

Record database : Type := Database {
  orders : gmap string order;
  order_history : list historyEntry;
  clock : nat;                     (* CURRENT_TIMESTAMP *)
  faults : list bool
}.

(** The statements the service sends, with their parameters. *)
Inductive statement : Type :=
| InsertOrder (orderId customerName phoneNumber address items : string)
              (deliveryDate : option string) (addedBy : string)
| UpdateDelivered (status : string) (deliveryPerson : option string) (orderId : string)
| UpdateCancelled (status : string) (orderId : string)
| UpdateStatus (status : string) (deliveryPerson : option string) (orderId : string)
| InsertHistory (orderId status changedBy notes : string)
| SelectOrder (orderId : string).

Definition setOrders (o : gmap string order) (db : database) : database :=
  Database o (order_history db) (clock db) (faults db).

(** The row of [INSERT INTO orders ... RETURNING *]; [status] and
    [created_at] take their defaults. *)
Definition insertedRow (orderId customerName phoneNumber address items : string)
           (deliveryDate : option string) (addedBy : string) (now : nat) : order :=
  Order orderId customerName phoneNumber address items deliveryDate "pending"
    addedBy None now None None.

(** [SET status = $1, delivery_person = $2, delivered_at = CURRENT_TIMESTAMP] *)
Definition deliveredRow (o : order) (status : string) (deliveryPerson : option string)
           (now : nat) : order :=
  Order (order_id o) (customer_name o) (phone_number o) (address o) (items o)
    (delivery_date o) status (added_by o) deliveryPerson (created_at o)
    (Some now) (cancelled_at o).

(** [SET status = $1, cancelled_at = CURRENT_TIMESTAMP] *)
Definition cancelledRow (o : order) (status : string) (now : nat) : order :=
  Order (order_id o) (customer_name o) (phone_number o) (address o) (items o)
    (delivery_date o) status (added_by o) (delivery_person o) (created_at o)
    (delivered_at o) (Some now).

(** [SET status = $1, delivery_person = $2] *)
Definition restatedRow (o : order) (status : string) (deliveryPerson : option string)
  : order :=
  Order (order_id o) (customer_name o) (phone_number o) (address o) (items o)
    (delivery_date o) status (added_by o) deliveryPerson (created_at o)
    (delivered_at o) (cancelled_at o).

(** [UPDATE orders SET ... WHERE order_id = $n RETURNING *] *)
Definition updateWhere (orderId : string) (change : order -> order) (db : database)
  : completion (list order) * database :=
  match orders db !! orderId with
  | None => (Normal [], db)
  | Some o => (Normal [change o], setOrders (<[orderId := change o]> (orders db)) db)
  end.

(** The statement on the tables, without the faults: the rows it returns
    and the new tables, or the violation of the unique constraint. *)
Definition execute (q : statement) (db : database)
  : completion (list order) * database :=
  match q with
  | InsertOrder orderId customerName phoneNumber address items deliveryDate addedBy =>
      match orders db !! orderId with
      | Some _ => (Throw "duplicate key value violates unique constraint", db)
      | None =>
          let row := insertedRow orderId customerName phoneNumber address items
                       deliveryDate addedBy (clock db) in
          (Normal [row], setOrders (<[orderId := row]> (orders db)) db)
      end
  | UpdateDelivered status deliveryPerson orderId =>
      updateWhere orderId (fun o => deliveredRow o status deliveryPerson (clock db)) db
  | UpdateCancelled status orderId =>
      updateWhere orderId (fun o => cancelledRow o status (clock db)) db
  | UpdateStatus status deliveryPerson orderId =>
      updateWhere orderId (fun o => restatedRow o status deliveryPerson) db
  | InsertHistory orderId status changedBy notes =>
      (Normal [],
       Database (orders db)
         (order_history db ++ [History orderId status changedBy (clock db) notes])
         (clock db) (faults db))
  | SelectOrder orderId =>
      match orders db !! orderId with
      | None => (Normal [], db)
      | Some o => (Normal [o], db)
      end
  end.

(** [database.query]: time passes, then the statement fails or runs. *)
Definition query (q : statement) (db : database)
  : completion (list order) * database :=
  match faults db with
  | true :: rest =>
      (Throw "query failed",
       Database (orders db) (order_history db) (S (clock db)) rest)
  | false :: rest =>
      execute q (Database (orders db) (order_history db) (S (clock db)) rest)
  | [] =>
      execute q (Database (orders db) (order_history db) (S (clock db)) [])
  end.

(** [addOrderHistory]: the [catch] logs the error and goes on. *)
Definition addOrderHistory (orderId status changedBy notes : string) (db : database)
  : completion unit * database :=
  match query (InsertHistory orderId status changedBy notes) db with
  | (Normal _, db') => (Normal tt, db')
  | (Throw _, db') => (Normal tt, db')
  end.

(** [createOrder]: [orderId] is what [Helpers.generateOrderId()] drew; the
    result is [result.rows[0]]. *)
Definition createOrder (orderId : string) (orderData : OrderParser.draft)
           (db : database) : completion (option order) * database :=
  match query (InsertOrder orderId
                 (OrderParser.draftName orderData)
                 (Helpers.formatPhoneNumber (OrderParser.draftPhone orderData))
                 (OrderParser.draftAddress orderData)
                 (OrderParser.draftItems orderData)
                 (OrderParser.draftDate orderData)
                 (OrderParser.addedBy orderData)) db with
  | (Throw e, db') => (Throw e, db')
  | (Normal rows, db') =>
      match addOrderHistory orderId "pending" (OrderParser.addedBy orderData)
              "Order created" db' with
      | (Throw e, db'') => (Throw e, db'')
      | (Normal _, db'') => (Normal (head rows), db'')
      end
  end.

(** The row [createOrder] gets back from its INSERT at time [now]. *)
Definition createdRow (orderId : string) (orderData : OrderParser.draft) (now : nat)
  : order :=
  insertedRow orderId (OrderParser.draftName orderData)
    (Helpers.formatPhoneNumber (OrderParser.draftPhone orderData))
    (OrderParser.draftAddress orderData) (OrderParser.draftItems orderData)
    (OrderParser.draftDate orderData) (OrderParser.addedBy orderData) now.

Definition updateStatement (orderId status : string) (deliveryPerson : option string)
  : statement :=
  if String.eqb status "delivered" then UpdateDelivered status deliveryPerson orderId
  else if String.eqb status "cancelled" then UpdateCancelled status orderId
  else UpdateStatus status deliveryPerson orderId.

(** The two awaited parts of [updateOrderStatus]: the UPDATE with the check
    of its rows, and the history entry. *)
Definition updateRow (orderId status : string) (deliveryPerson : option string)
           (db : database) : completion order * database :=
  match query (updateStatement orderId status deliveryPerson) db with
  | (Throw e, db') => (Throw e, db')
  | (Normal [], db') => (Throw ("Order " +:+ orderId +:+ " not found"), db')
  | (Normal (row :: _), db') => (Normal row, db')
  end.

Definition updateOrderStatus (orderId status changedBy : string)
           (deliveryPerson : option string) (db : database)
  : completion order * database :=
  match updateRow orderId status deliveryPerson db with
  | (Throw e, db') => (Throw e, db')
  | (Normal row, db') =>
      match addOrderHistory orderId status changedBy
              ("Status changed to " +:+ status) db' with
      | (Throw e, db'') => (Throw e, db'')
      | (Normal _, db'') => (Normal row, db'')
      end
  end.

(** [getOrderById]: [result.rows[0] || null] *)
Definition getOrderById (orderId : string) (db : database)
  : completion (option order) * database :=
  match query (SelectOrder orderId) db with
  | (Throw e, db') => (Throw e, db')
  | (Normal rows, db') => (Normal (head rows), db')
  end.

End OrderService.

(** ** Commands of the delivery group ([src/services/WhatsAppService.js])

    The transport is taken to deliver every message: [sendToDeliveryGroup]
    appends to the conversation.  The texts are kept as the constructor of
    their template. *)

Module WhatsAppService.
Import Completion OrderService.

Inductive reply : Type :=
| NotFound (orderId : string)                 (* Order #id not found. *)
| AlreadyDelivered (orderId : string)         (* Order #id is already marked as delivered. *)
| CannotDeliverCancelled (orderId : string)   (* Cannot mark cancelled order #id as delivered. *)
| MarkedDelivered (orderId deliveryPerson : string)
                                              (* Order #id marked as delivered by p. *)
| ErrorUpdating (orderId : string)            (* Error updating order #id. Please try again. *)
| AlreadyCancelled (orderId : string)         (* Order #id is already cancelled. *)
| CannotCancelDelivered (orderId : string)    (* Cannot cancel delivered order #id. *)
| OrderCancelled (orderId cancelledBy : string)
                                              (* Order #id cancelled by p. *)
| ErrorCancelling (orderId : string)          (* Error cancelling order #id. Please try again. *)
| Report (command : string).                  (* a report or the help text; contents not modelled *)

(** The outcomes of the specification's error taxonomy. *)
Inductive outcome : Type :=
| Succeeded
| OutcomeNotFound
| OutcomeAlreadyDelivered
| OutcomeAlreadyCancelled
| InvalidTransition
| PersistenceFailure
| Informational.

Definition outcomeOf (r : reply) : outcome :=
  match r with
  | NotFound _ => OutcomeNotFound
  | AlreadyDelivered _ => OutcomeAlreadyDelivered
  | CannotDeliverCancelled _ => InvalidTransition
  | MarkedDelivered _ _ => Succeeded
  | ErrorUpdating _ => PersistenceFailure
  | AlreadyCancelled _ => OutcomeAlreadyCancelled
  | CannotCancelDelivered _ => InvalidTransition
  | OrderCancelled _ _ => Succeeded
  | ErrorCancelling _ => PersistenceFailure
  | Report _ => Informational
  end.

Record world : Type := World {
  db : database;
  deliveryGroup : list reply
}.

Definition sendToDeliveryGroup (r : reply) (w : world) : world :=
  World (db w) (deliveryGroup w ++ [r]).

Definition markOrderAsDelivered (orderId deliveryPerson : string) (w : world) : world :=
  match getOrderById orderId (db w) with
  | (Throw _, db') => sendToDeliveryGroup (ErrorUpdating orderId) (World db' (deliveryGroup w))
  | (Normal None, db') => sendToDeliveryGroup (NotFound orderId) (World db' (deliveryGroup w))
  | (Normal (Some order), db') =>
      if String.eqb (status order) "delivered" then
        sendToDeliveryGroup (AlreadyDelivered orderId) (World db' (deliveryGroup w))
      else if String.eqb (status order) "cancelled" then
        sendToDeliveryGroup (CannotDeliverCancelled orderId) (World db' (deliveryGroup w))
      else
        match updateOrderStatus orderId "delivered" deliveryPerson (Some deliveryPerson) db' with
        | (Throw _, db'') =>
            sendToDeliveryGroup (ErrorUpdating orderId) (World db'' (deliveryGroup w))
        | (Normal _, db'') =>
            sendToDeliveryGroup (MarkedDelivered orderId deliveryPerson)
              (World db'' (deliveryGroup w))
        end
  end.

Definition cancelOrder (orderId cancelledBy : string) (w : world) : world :=
  match getOrderById orderId (db w) with
  | (Throw _, db') => sendToDeliveryGroup (ErrorCancelling orderId) (World db' (deliveryGroup w))
  | (Normal None, db') => sendToDeliveryGroup (NotFound orderId) (World db' (deliveryGroup w))
  | (Normal (Some order), db') =>
      if String.eqb (status order) "cancelled" then
        sendToDeliveryGroup (AlreadyCancelled orderId) (World db' (deliveryGroup w))
      else if String.eqb (status order) "delivered" then
        sendToDeliveryGroup (CannotCancelDelivered orderId) (World db' (deliveryGroup w))
      else
        match updateOrderStatus orderId "cancelled" cancelledBy None db' with
        | (Throw _, db'') =>
            sendToDeliveryGroup (ErrorCancelling orderId) (World db'' (deliveryGroup w))
        | (Normal _, db'') =>
            sendToDeliveryGroup (OrderCancelled orderId cancelledBy)
              (World db'' (deliveryGroup w))
        end
  end.

(** *** The handler of a message of the delivery group *)

Record message : Type := Message {
  body : string;
  quoted : option string     (* the body of the quoted message, when it is a reply *)
}.

Definition hasQuotedMsg (msg : message) : bool :=
  match quoted msg with Some _ => true | None => false end.

Record contact : Type := Contact {
  isMe : bool;
  name : option string;
  number : string
}.

(** [contact.name || contact.number] *)
Definition senderOf (c : contact) : string :=
  match name c with
  | Some n => if Js.truthy n then n else number c
  | None => number c
  end.

(** The longest prefix of word characters: what [(\w+)] captures. *)
Fixpoint wordPrefix (s : string) : string :=
  match s with
  | EmptyString => EmptyString
  | String c s' => if Js.isWord c then String c (wordPrefix s') else EmptyString
  end.

(** [messageBody.match(/Order #(\w+)/)]: the capture of the leftmost match. *)
Fixpoint extractOrderIdFromMessage (messageBody : string) : option string :=
  let here := if Js.startsWith messageBody "Order #"
              then wordPrefix (Js.substring 7 messageBody) else EmptyString in
  if Js.truthy here then Some here
  else match messageBody with
       | EmptyString => None
       | String _ rest => extractOrderIdFromMessage rest
       end.

Definition handleReplyCompletion (msg : message) (senderName : string) (w : world)
  : world :=
  match quoted msg with
  | None => w
  | Some quotedBody =>
      match extractOrderIdFromMessage quotedBody with
      | Some orderId => markOrderAsDelivered orderId senderName w
      | None => w
      end
  end.

Definition handleReplyCancellation (msg : message) (senderName : string) (w : world)
  : world :=
  match quoted msg with
  | None => w
  | Some quotedBody =>
      match extractOrderIdFromMessage quotedBody with
      | Some orderId => cancelOrder orderId senderName w
      | None => w
      end
  end.

Definition handleDeliveryGroupMessage (msg : message) (c : contact) (w : world) : world :=
  if isMe c then w
  else
    let messageBody := Js.trim (Js.toLowerCase (body msg)) in
    let senderName := senderOf c in
    if hasQuotedMsg msg && String.eqb messageBody "done" then
      handleReplyCompletion msg senderName w
    else if hasQuotedMsg msg && String.eqb messageBody "cancel" then
      handleReplyCancellation msg senderName w
    else if Js.startsWith messageBody "done #" then
      let orderId := Js.trim (Js.removeFirst messageBody "done #") in
      markOrderAsDelivered orderId senderName w
    else if Js.startsWith messageBody "cancel #" then
      let orderId := Js.trim (Js.removeFirst messageBody "cancel #") in
      cancelOrder orderId senderName w
    else if String.eqb messageBody "/daily" || String.eqb messageBody "/pending"
            || String.eqb messageBody "/weekly" || String.eqb messageBody "/monthly"
            || String.eqb messageBody "/help" then
      sendToDeliveryGroup (Report messageBody) w
    else w.

(** *** Requests in flight

    A handler gives control back at each [await]; the program points of
    the two transitions, one awaited call per step. *)

Inductive task : Type :=
| Deliver (orderId deliveryPerson : string)         (* at getOrderById *)
| DeliverUpdate (orderId deliveryPerson : string)   (* at the UPDATE *)
| DeliverHistory (orderId deliveryPerson : string)  (* at addOrderHistory *)
| Cancel (orderId cancelledBy : string)
| CancelUpdate (orderId cancelledBy : string)
| CancelHistory (orderId cancelledBy : string)
| Send (r : reply)                                  (* at sendToDeliveryGroup *)
| Finished.

Definition step (t : task) (w : world) : task * world :=
  match t with
  | Deliver orderId deliveryPerson =>
      match getOrderById orderId (db w) with
      | (Throw _, db') => (Send (ErrorUpdating orderId), World db' (deliveryGroup w))
      | (Normal None, db') => (Send (NotFound orderId), World db' (deliveryGroup w))
      | (Normal (Some order), db') =>
          (if String.eqb (status order) "delivered" then Send (AlreadyDelivered orderId)
           else if String.eqb (status order) "cancelled"
                then Send (CannotDeliverCancelled orderId)
                else DeliverUpdate orderId deliveryPerson,
           World db' (deliveryGroup w))
      end
  | DeliverUpdate orderId deliveryPerson =>
      match updateRow orderId "delivered" (Some deliveryPerson) (db w) with
      | (Throw _, db') => (Send (ErrorUpdating orderId), World db' (deliveryGroup w))
      | (Normal _, db') => (DeliverHistory orderId deliveryPerson, World db' (deliveryGroup w))
      end
  | DeliverHistory orderId deliveryPerson =>
      match addOrderHistory orderId "delivered" deliveryPerson
              "Status changed to delivered" (db w) with
      | (Throw _, db') => (Send (ErrorUpdating orderId), World db' (deliveryGroup w))
      | (Normal _, db') =>
          (Send (MarkedDelivered orderId deliveryPerson), World db' (deliveryGroup w))
      end
  | Cancel orderId cancelledBy =>
      match getOrderById orderId (db w) with
      | (Throw _, db') => (Send (ErrorCancelling orderId), World db' (deliveryGroup w))
      | (Normal None, db') => (Send (NotFound orderId), World db' (deliveryGroup w))
      | (Normal (Some order), db') =>
          (if String.eqb (status order) "cancelled" then Send (AlreadyCancelled orderId)
           else if String.eqb (status order) "delivered"
                then Send (CannotCancelDelivered orderId)
                else CancelUpdate orderId cancelledBy,
           World db' (deliveryGroup w))
      end
  | CancelUpdate orderId cancelledBy =>
      match updateRow orderId "cancelled" None (db w) with
      | (Throw _, db') => (Send (ErrorCancelling orderId), World db' (deliveryGroup w))
      | (Normal _, db') => (CancelHistory orderId cancelledBy, World db' (deliveryGroup w))
      end
  | CancelHistory orderId cancelledBy =>
      match addOrderHistory orderId "cancelled" cancelledBy
              "Status changed to cancelled" (db w) with
      | (Throw _, db') => (Send (ErrorCancelling orderId), World db' (deliveryGroup w))
      | (Normal _, db') =>
          (Send (OrderCancelled orderId cancelledBy), World db' (deliveryGroup w))
      end
  | Send r => (Finished, sendToDeliveryGroup r w)
  | Finished => (Finished, w)
  end.

(** One request run alone, to its end. *)
Fixpoint run (fuel : nat) (t : task) (w : world) : world :=
  match fuel with
  | O => w
  | S n => let (t', w') := step t w in run n t' w'
  end.

(** Requests in flight together: the schedule names, step after step, the
    request that goes on. *)
Fixpoint interleave (schedule : list nat) (pool : list task) (w : world)
  : list task * world :=
  match schedule with
  | [] => (pool, w)
  | i :: rest =>
      match pool !! i with
      | None => interleave rest pool w
      | Some t => let (t', w') := step t w in interleave rest (<[i := t']> pool) w'
      end
  end.

(** The terminal transitions a conversation reports as done. *)
Definition succeeded (r : reply) : bool :=
  match outcomeOf r with Succeeded => true | _ => false end.

End WhatsAppService.

(** ** Sample data *)

Module Samples.
Import OrderService WhatsAppService.

Definition moment : OrderParser.Moment :=
  OrderParser.Build_Moment "2024-01-15" "2024-01-16" (fun _ _ => None).

Definition draft : OrderParser.draft :=
  OrderParser.Draft "Amaka Obi" "08012345678" "12 Allen Avenue, Ikeja"
    "2x Jollof rice, 1 chicken" None "Sales".

Definition orderId : string := "ORD20240115042".

Definition emptyDb : database := Database ∅ [] 0 [].

(** The store after the sample order was created. *)
Definition storedDb : database := snd (createOrder orderId draft emptyDb).

Definition storedWorld : world := World storedDb [].

(** The same, after the order was cancelled. *)
Definition cancelledWorld : world := cancelOrder orderId "Boss" storedWorld.

(** A store whose second query fails. *)
Definition failingDb : database := Database ∅ [] 0 [false; true].

(** A three-line pool: a name, an address, the items. *)
Definition threeLines : list string :=
  ["Amaka"; "12 Allen Avenue"; "Jollof rice and chicken stew"].

(** An unlabeled message: the three lines, and the phone line after the name. *)
Definition unlabeledMessage : string :=
  "Amaka" +:+ String "010" "08012345678" +:+ String "010" "12 Allen Avenue"
  +:+ String "010" "Jollof rice and chicken stew".

End Samples.

(** * Properties *)

(** ** Strings *)

Section StringFacts.

Variable p : ascii -> bool.

Lemma keep_length_le (s : string) :
  String.length (Js.keep p s) <= String.length s.
Proof.
  induction s as [|c s IH]; simpl; [lia|].
  destruct (p c); simpl; lia.
Qed.

Lemma keep_idempotent (s : string) : Js.keep p (Js.keep p s) = Js.keep p s.
Proof.
  induction s as [|c s IH]; simpl; [reflexivity|].
  destruct (p c) eqn:E; simpl; [rewrite E, IH|]; auto.
Qed.

Lemma keep_fixed_tail (c : ascii) (t : string) :
  Js.keep p (String c t) = String c t -> Js.keep p t = t.
Proof.
  simpl. destruct (p c); intros H.
  - now injection H.
  - pose proof (keep_length_le t) as L. rewrite H in L. simpl in L. lia.
Qed.

End StringFacts.

Lemma startsWith_one (s : string) (c : ascii) :
  Js.startsWith s (String c EmptyString) = true -> exists t, s = String c t.
Proof.
  destruct s as [|b t]; simpl; [discriminate|].
  rewrite andb_true_r. intros H. apply Ascii.eqb_eq in H. subst. eauto.
Qed.

(** ** Phone normalization *)

Lemma cleaned_fixed (phone : string) :
  Js.keep Js.isDigit (Helpers.cleaned phone) = Helpers.cleaned phone.
Proof. apply keep_idempotent. Qed.

Lemma cleaned_plus (x : string) : Helpers.cleaned ("+" +:+ x) = Helpers.cleaned x.
Proof. reflexivity. Qed.

Lemma cleaned_plus234 (x : string) :
  Helpers.cleaned ("+234" +:+ x) = "234" +:+ Helpers.cleaned x.
Proof. reflexivity. Qed.

Lemma formatPhoneNumber_twice (phone : string) :
  Helpers.formatPhoneNumber (Helpers.formatPhoneNumber phone)
  = Helpers.formatPhoneNumber phone.
Proof.
  pose proof (cleaned_fixed phone) as Hfix. fold (Helpers.cleaned (Helpers.cleaned phone)) in Hfix.
  unfold Helpers.formatPhoneNumber at 2 3. cbv zeta.
  set (d := Helpers.cleaned phone) in *.
  destruct (Js.startsWith d "0") eqn:E0.
  - destruct (startsWith_one _ _ E0) as [t Ht]. rewrite Ht in *.
    apply keep_fixed_tail in Hfix. fold (Helpers.cleaned t) in Hfix.
    simpl Js.substring. unfold Helpers.formatPhoneNumber.
    rewrite cleaned_plus234, Hfix. reflexivity.
  - destruct (Js.startsWith d "234") eqn:E234; simpl negb; cbv iota.
    + unfold Helpers.formatPhoneNumber. rewrite cleaned_plus, Hfix, E0, E234. reflexivity.
    + unfold Helpers.formatPhoneNumber. rewrite cleaned_plus234, Hfix. reflexivity.
Qed.

(** C4, as amended: phone normalization is idempotent.  For every string,
    normalizing the normalized number gives the normalized number again. *)
Theorem formatPhoneNumber_idempotent :
  forall phone : string,
    Helpers.formatPhoneNumber (Helpers.formatPhoneNumber phone)
    = Helpers.formatPhoneNumber phone.
Proof. exact formatPhoneNumber_twice. Qed.

(** C4, as stated, fails: no phone string is normalized differently by two
    applications than by one; the bare national number 8012345678 is a case
    in point. *)
Lemma formatPhoneNumber_not_idempotent_refuted :
  ~ (exists phone : string,
        Helpers.formatPhoneNumber (Helpers.formatPhoneNumber phone)
        <> Helpers.formatPhoneNumber phone)
  /\ Helpers.formatPhoneNumber (Helpers.formatPhoneNumber "8012345678")
     = Helpers.formatPhoneNumber "8012345678".
Proof.
  split; [|reflexivity].
  intros [phone H]. apply H, formatPhoneNumber_twice.
Qed.

(** C5: phone normalization maps the local and the bare international form
    to the international form with a plus sign, and for every string it is
    the four steps of the specification: strip the non-digits, replace a
    leading 0 by 234, prepend 234 when the digits do not start with it,
    prefix with a plus sign. *)
Theorem formatPhoneNumber_normalizes :
  Helpers.formatPhoneNumber "08012345678" = "+2348012345678"
  /\ Helpers.formatPhoneNumber "2348012345678" = "+2348012345678"
  /\ forall phone : string,
       Helpers.formatPhoneNumber phone = Helpers.normalize_spec phone.
Proof.
  split; [reflexivity|]. split; [reflexivity|].
  intros phone. unfold Helpers.formatPhoneNumber, Helpers.normalize_spec, Helpers.cleaned.
  destruct (Js.startsWith (Js.keep Js.isDigit phone) "0") eqn:E0.
  - reflexivity.
  - destruct (Js.startsWith (Js.keep Js.isDigit phone) "234"); reflexivity.
Qed.

(** ** Phone candidates *)

Lemma keep_digits_length (s : string) :
  String.length (Js.keep Js.isDigit s) = OrderParser.digitCount s.
Proof.
  induction s as [|c s IH]; simpl; [reflexivity|].
  destruct (Js.isDigit c); simpl; lia.
Qed.

(** C10: a string is a phone candidate exactly when it has between 10 and
    15 digit characters; the tests of the prefix exclude nothing. *)
Theorem isPhoneNumber_digit_count :
  forall str : string,
    OrderParser.isPhoneNumber str
    = (10 <=? OrderParser.digitCount str) && (OrderParser.digitCount str <=? 15)
    /\ (OrderParser.isPhoneNumber str = true
        <-> 10 <= OrderParser.digitCount str <= 15).
Proof.
  intros str.
  assert (E : OrderParser.isPhoneNumber str
              = (10 <=? OrderParser.digitCount str)
                && (OrderParser.digitCount str <=? 15)).
  { unfold OrderParser.isPhoneNumber. rewrite keep_digits_length.
    set (n := OrderParser.digitCount str).
    destruct (Nat.ltb_spec n 10), (Nat.ltb_spec 15 n),
      (Nat.leb_spec 10 n), (Nat.leb_spec n 15); try lia;
      cbn [orb andb]; rewrite ?orb_true_r; reflexivity. }
  split; [exact E|].
  rewrite E, andb_true_iff, Nat.leb_le, Nat.leb_le. tauto.
Qed.

(** ** The order store *)

Section StoreFacts.
Import Completion OrderService WhatsAppService.

Lemma query_no_fault (q : statement) (db : database) :
  faults db = [] ->
  query q db = execute q (Database (orders db) (order_history db) (S (clock db)) []).
Proof. intros H. unfold query. now rewrite H. Qed.

Lemma createOrder_fresh (orderId : string) (orderData : OrderParser.draft)
      (db : database) :
  faults db = [] ->
  orders db !! orderId = None ->
  createOrder orderId orderData db
  = (Normal (Some (createdRow orderId orderData (S (clock db)))),
     Database (<[orderId := createdRow orderId orderData (S (clock db))]> (orders db))
       (order_history db
        ++ [History orderId "pending" (OrderParser.addedBy orderData)
              (S (S (clock db))) "Order created"])
       (S (S (clock db))) []).
Proof.
  intros Hf Hn. destruct db as [os hs c fs]. simpl in *. subst fs.
  unfold createOrder, query. simpl. rewrite Hn. reflexivity.
Qed.

Lemma markOrderAsDelivered_open (orderId deliveryPerson : string) (w : world)
      (o : order) :
  faults (db w) = [] ->
  orders (db w) !! orderId = Some o ->
  String.eqb (status o) "delivered" = false ->
  String.eqb (status o) "cancelled" = false ->
  markOrderAsDelivered orderId deliveryPerson w
  = World
      (Database
         (<[orderId := deliveredRow o "delivered" (Some deliveryPerson)
                          (S (S (clock (db w))))]>
            (orders (db w)))
         (order_history (db w)
          ++ [History orderId "delivered" deliveryPerson (S (S (S (clock (db w)))))
                "Status changed to delivered"])
         (S (S (S (clock (db w))))) [])
      (deliveryGroup w ++ [MarkedDelivered orderId deliveryPerson]).
Proof.
  intros Hf Ho Hd Hc. destruct w as [[os hs c fs] g]. simpl in *. subst fs.
  unfold markOrderAsDelivered, getOrderById, query. simpl. rewrite Ho. simpl.
  rewrite Hd, Hc.
  unfold updateOrderStatus, updateRow, query. simpl.
  unfold updateWhere. simpl. rewrite Ho. reflexivity.
Qed.

Lemma markOrderAsDelivered_delivered (orderId deliveryPerson : string) (w : world)
      (o : order) :
  faults (db w) = [] ->
  orders (db w) !! orderId = Some o ->
  status o = "delivered" ->
  markOrderAsDelivered orderId deliveryPerson w
  = World (Database (orders (db w)) (order_history (db w)) (S (clock (db w))) [])
      (deliveryGroup w ++ [AlreadyDelivered orderId]).
Proof.
  intros Hf Ho Hs. destruct w as [[os hs c fs] g]. simpl in *. subst fs.
  unfold markOrderAsDelivered, getOrderById, query. simpl. rewrite Ho. simpl.
  rewrite Hs. reflexivity.
Qed.

Lemma markOrderAsDelivered_cancelled (orderId deliveryPerson : string) (w : world)
      (o : order) :
  faults (db w) = [] ->
  orders (db w) !! orderId = Some o ->
  status o = "cancelled" ->
  markOrderAsDelivered orderId deliveryPerson w
  = World (Database (orders (db w)) (order_history (db w)) (S (clock (db w))) [])
      (deliveryGroup w ++ [CannotDeliverCancelled orderId]).
Proof.
  intros Hf Ho Hs. destruct w as [[os hs c fs] g]. simpl in *. subst fs.
  unfold markOrderAsDelivered, getOrderById, query. simpl. rewrite Ho. simpl.
  rewrite Hs. reflexivity.
Qed.

End StoreFacts.

(** ** The lifecycle of an order *)

Section Lifecycle.
Import Completion OrderService WhatsAppService.

(** X1: while no query of the store fails, creating an order under a fresh
    id gives a pending order and appends exactly one history entry; marking
    a cancelled order as delivered changes neither table and answers with
    the refusal of the transition; marking a pending order as delivered
    twice delivers it once, and the second call changes neither table and
    answers that the order is already delivered. *)
Theorem order_lifecycle :
  (forall (orderId : string) (orderData : OrderParser.draft) (d : database),
      faults d = [] ->
      orders d !! orderId = None ->
      exists (row : order) (d' : database) (entry : historyEntry),
        createOrder orderId orderData d = (Normal (Some row), d')
        /\ status row = "pending"
        /\ orders d' !! orderId = Some row
        /\ order_history d' = order_history d ++ [entry]
        /\ history_order_id entry = orderId
        /\ history_status entry = "pending"
        /\ notes entry = "Order created")
  /\ (forall (orderId deliveryPerson : string) (w : world) (o : order),
         faults (db w) = [] ->
         orders (db w) !! orderId = Some o ->
         status o = "cancelled" ->
         let w' := markOrderAsDelivered orderId deliveryPerson w in
         orders (db w') = orders (db w)
         /\ order_history (db w') = order_history (db w)
         /\ deliveryGroup w' = deliveryGroup w ++ [CannotDeliverCancelled orderId]
         /\ outcomeOf (CannotDeliverCancelled orderId) = InvalidTransition)
  /\ (forall (orderId first second : string) (w : world) (o : order),
         faults (db w) = [] ->
         orders (db w) !! orderId = Some o ->
         status o = "pending" ->
         let w1 := markOrderAsDelivered orderId first w in
         let w2 := markOrderAsDelivered orderId second w1 in
         (exists o1 : order,
             orders (db w1) !! orderId = Some o1
             /\ status o1 = "delivered"
             /\ delivery_person o1 = Some first)
         /\ (exists entry : historyEntry,
                order_history (db w1) = order_history (db w) ++ [entry]
                /\ history_order_id entry = orderId
                /\ history_status entry = "delivered"
                /\ changed_by entry = first)
         /\ orders (db w2) = orders (db w1)
         /\ order_history (db w2) = order_history (db w1)
         /\ deliveryGroup w2
            = deliveryGroup w ++ [MarkedDelivered orderId first; AlreadyDelivered orderId]
         /\ outcomeOf (AlreadyDelivered orderId) = OutcomeAlreadyDelivered).
Proof.
  split; [|split].
  - intros orderId orderData d Hf Hn.
    rewrite (createOrder_fresh _ _ _ Hf Hn).
    eexists _, _, _. split; [reflexivity|]. simpl.
    rewrite lookup_insert_eq. repeat split; reflexivity.
  - intros orderId deliveryPerson w o Hf Ho Hs w'. subst w'.
    rewrite (markOrderAsDelivered_cancelled _ _ _ _ Hf Ho Hs). simpl.
    repeat split; reflexivity.
  - intros orderId first second w o Hf Ho Hs w1 w2.
    pose proof (markOrderAsDelivered_open orderId first w o Hf Ho) as E1.
    rewrite Hs in E1. specialize (E1 eq_refl eq_refl). fold w1 in E1.
    pose proof (fun o1 => markOrderAsDelivered_delivered orderId second w1 o1) as E2.
    fold w2 in E2. rewrite E1 in E2. simpl in E2.
    specialize (E2 _ eq_refl (lookup_insert_eq _ _ _) eq_refl).
    rewrite E2, E1. simpl. rewrite lookup_insert_eq.
    split; [eexists; repeat split; reflexivity|].
    split; [eexists; repeat split; reflexivity|].
    rewrite <- app_assoc. repeat split; reflexivity.
Qed.

Lemma order_lifecycle_witness :
  (exists (row : order) (d' : database) (entry : historyEntry),
      createOrder Samples.orderId Samples.draft Samples.emptyDb = (Normal (Some row), d')
      /\ status row = "pending"
      /\ orders d' !! Samples.orderId = Some row
      /\ order_history d' = order_history Samples.emptyDb ++ [entry]
      /\ history_order_id entry = Samples.orderId
      /\ history_status entry = "pending"
      /\ notes entry = "Order created")
  /\ deliveryGroup (markOrderAsDelivered Samples.orderId "Rider" Samples.cancelledWorld)
     = deliveryGroup Samples.cancelledWorld ++ [CannotDeliverCancelled Samples.orderId]
  /\ deliveryGroup
       (markOrderAsDelivered Samples.orderId "Rider"
          (markOrderAsDelivered Samples.orderId "Rider" Samples.storedWorld))
     = deliveryGroup Samples.storedWorld
       ++ [MarkedDelivered Samples.orderId "Rider"; AlreadyDelivered Samples.orderId].
Proof.
  destruct order_lifecycle as (Hcreate & Hcancelled & Htwice).
  split; [|split].
  - apply Hcreate; reflexivity.
  - eapply (Hcancelled Samples.orderId "Rider" Samples.cancelledWorld);
      [reflexivity | vm_compute; reflexivity | reflexivity].
  - eapply (Htwice Samples.orderId "Rider" "Rider" Samples.storedWorld);
      [reflexivity | vm_compute; reflexivity | reflexivity].
Defined.

End Lifecycle.

(** ** Failures of the store *)

Section StoreFailures.
Import Completion OrderService WhatsAppService.

(** What the code does where C3 asks for a propagated error: when the
    insert into [order_history] fails, [createOrder] and
    [updateOrderStatus] return normally, the order is written, and the
    history has no entry for it. *)
Theorem addOrderHistory_failure_swallowed :
  (forall (orderId : string) (orderData : OrderParser.draft) (d : database)
          (rest : list bool),
      faults d = false :: true :: rest ->
      orders d !! orderId = None ->
      exists (row : order) (d' : database),
        createOrder orderId orderData d = (Normal (Some row), d')
        /\ orders d' !! orderId = Some row
        /\ order_history d' = order_history d)
  /\ (forall (orderId newStatus changedBy : string) (deliveryPerson : option string)
             (d : database) (o : order) (rest : list bool),
         faults d = false :: true :: rest ->
         orders d !! orderId = Some o ->
         exists (row : order) (d' : database),
           updateOrderStatus orderId newStatus changedBy deliveryPerson d
           = (Normal row, d')
           /\ orders d' !! orderId = Some row
           /\ status row = newStatus
           /\ order_history d' = order_history d).
Proof.
  split.
  - intros orderId orderData [os hs c fs] rest Hf Hn. simpl in *. subst fs.
    unfold createOrder, query. simpl. rewrite Hn. simpl.
    eexists _, _. split; [reflexivity|]. simpl.
    rewrite lookup_insert_eq. split; reflexivity.
  - intros orderId newStatus changedBy deliveryPerson [os hs c fs] o rest Hf Ho.
    simpl in *. subst fs.
    unfold updateOrderStatus, updateRow, query, updateStatement. simpl.
    destruct (String.eqb newStatus "delivered");
      [|destruct (String.eqb newStatus "cancelled")];
      simpl; unfold updateWhere; simpl; rewrite Ho; simpl;
      (eexists _, _; split; [reflexivity|]; simpl;
       rewrite lookup_insert_eq; repeat split; reflexivity).
Qed.

Lemma addOrderHistory_failure_swallowed_witness :
  exists (row : order) (d' : database),
    createOrder Samples.orderId Samples.draft Samples.failingDb = (Normal (Some row), d')
    /\ orders d' !! Samples.orderId = Some row
    /\ order_history d' = order_history Samples.failingDb.
Proof.
  apply (proj1 addOrderHistory_failure_swallowed) with (rest := []); reflexivity.
Defined.

Lemma no_history_of (orderId : string) (hs : list historyEntry) :
  (forall h : historyEntry, In h hs -> history_order_id h <> orderId) ->
  List.filter (fun h => String.eqb (history_order_id h) orderId) hs = [].
Proof.
  induction hs as [|h hs IH]; intros H; [reflexivity|]. simpl.
  destruct (String.eqb_spec (history_order_id h) orderId) as [E|_].
  - exfalso. apply (H h); [now left|exact E].
  - apply IH. intros h' Hin. apply H. now right.
Qed.

(** What the code does where C2 asks for exactly one history entry: when
    the insert of the order succeeds and the insert into [order_history]
    that follows fails, [createOrder] returns the new pending order, the
    order is in the store, and the history holds no entry for it. *)
Theorem createOrder_pending_without_history :
  forall (orderId : string) (orderData : OrderParser.draft) (d : database)
         (rest : list bool),
    faults d = false :: true :: rest ->
    orders d !! orderId = None ->
    (forall h : historyEntry,
        In h (order_history d) -> history_order_id h <> orderId) ->
    exists (row : order) (d' : database),
      createOrder orderId orderData d = (Normal (Some row), d')
      /\ status row = "pending"
      /\ orders d' !! orderId = Some row
      /\ List.filter (fun h => String.eqb (history_order_id h) orderId)
           (order_history d') = []
      /\ length (order_history d') = length (order_history d).
Proof.
  intros orderId orderData [os hs c fs] rest Hf Hn Hh. simpl in *. subst fs.
  unfold createOrder, query. simpl. rewrite Hn. simpl.
  eexists _, _. split; [reflexivity|]. simpl.
  rewrite lookup_insert_eq.
  split; [reflexivity|]. split; [reflexivity|].
  split; [now apply no_history_of|reflexivity].
Qed.

Lemma createOrder_pending_without_history_witness :
  exists (row : order) (d' : database),
    createOrder Samples.orderId Samples.draft Samples.failingDb = (Normal (Some row), d')
    /\ status row = "pending"
    /\ orders d' !! Samples.orderId = Some row
    /\ List.filter (fun h => String.eqb (history_order_id h) Samples.orderId)
         (order_history d') = []
    /\ length (order_history d') = length (order_history Samples.failingDb).
Proof.
  apply createOrder_pending_without_history with (rest := []);
    [reflexivity | reflexivity | intros h []].
Defined.

End StoreFailures.

(** ** Commands *)

Section Commands.
Import Completion OrderService WhatsAppService.

Lemma lowerChar_idempotent (c : ascii) : Js.lowerChar (Js.lowerChar c) = Js.lowerChar c.
Proof. destruct c as [[] [] [] [] [] [] [] []]; reflexivity. Qed.

Lemma toLowerCase_idempotent (s : string) :
  Js.toLowerCase (Js.toLowerCase s) = Js.toLowerCase s.
Proof.
  induction s as [|c s IH]; simpl; [reflexivity|].
  now rewrite lowerChar_idempotent, IH.
Qed.

Lemma lowered_cons (c : ascii) (s : string) :
  Js.toLowerCase (String c s) = String c s ->
  Js.lowerChar c = c /\ Js.toLowerCase s = s.
Proof. simpl. intros H. now injection H. Qed.

Lemma lowered_trimStart (s : string) :
  Js.toLowerCase s = s -> Js.toLowerCase (Js.trimStart s) = Js.trimStart s.
Proof.
  induction s as [|c s IH]; [reflexivity|].
  intros H. cbn [Js.trimStart]. destruct (Js.isSpace c); [|exact H].
  apply IH. now apply lowered_cons in H.
Qed.

Lemma lowered_trimEnd (s : string) :
  Js.toLowerCase s = s -> Js.toLowerCase (Js.trimEnd s) = Js.trimEnd s.
Proof.
  induction s as [|c s IH]; [reflexivity|].
  intros H. apply lowered_cons in H as [Hc Hs]. specialize (IH Hs).
  cbn [Js.trimEnd]. destruct (Js.trimEnd s) as [|a t].
  - destruct (Js.isSpace c); [reflexivity|]. simpl. now rewrite Hc.
  - cbn [Js.toLowerCase] in *. now rewrite Hc, IH.
Qed.

Lemma lowered_trim (s : string) :
  Js.toLowerCase s = s -> Js.toLowerCase (Js.trim s) = Js.trim s.
Proof. intros H. apply lowered_trimEnd, lowered_trimStart, H. Qed.

Lemma lowered_substring (n : nat) (s : string) :
  Js.toLowerCase s = s -> Js.toLowerCase (Js.substring n s) = Js.substring n s.
Proof.
  revert s. induction n as [|n IH]; intros [|c s] H; try exact H; try reflexivity.
  cbn [Js.substring]. apply IH. now apply lowered_cons in H.
Qed.

Lemma lowered_removeFirst (s p : string) :
  Js.toLowerCase s = s -> Js.toLowerCase (Js.removeFirst s p) = Js.removeFirst s p.
Proof.
  induction s as [|c s IH]; intros H.
  - cbn [Js.removeFirst]. destruct (Js.startsWith "" p); [|reflexivity].
    now apply lowered_substring.
  - cbn [Js.removeFirst]. destruct (Js.startsWith (String c s) p).
    + now apply lowered_substring.
    + apply lowered_cons in H as [Hc Hs]. cbn [Js.toLowerCase].
      now rewrite Hc, (IH Hs).
Qed.

(** The id of a command by id is cut out of the lower-cased body: whatever
    the sender wrote, the id that is looked up has no upper-case letter. *)
Lemma command_by_id_lowered (msg : message) (c : contact) (w : world) :
  isMe c = false ->
  (Js.startsWith (Js.trim (Js.toLowerCase (body msg))) "done #" = true ->
   exists orderId : string,
     handleDeliveryGroupMessage msg c w = markOrderAsDelivered orderId (senderOf c) w
     /\ Js.toLowerCase orderId = orderId)
  /\ (Js.startsWith (Js.trim (Js.toLowerCase (body msg))) "cancel #" = true ->
      exists orderId : string,
        handleDeliveryGroupMessage msg c w = cancelOrder orderId (senderOf c) w
        /\ Js.toLowerCase orderId = orderId).
Proof.
  intros Hme. unfold handleDeliveryGroupMessage. rewrite Hme.
  set (b := Js.trim (Js.toLowerCase (body msg))).
  assert (Hb : Js.toLowerCase b = b) by apply lowered_trim, toLowerCase_idempotent.
  split; intros H.
  - destruct (String.eqb_spec b "done") as [E|_]; [rewrite E in H; discriminate|].
    destruct (String.eqb_spec b "cancel") as [E|_]; [rewrite E in H; discriminate|].
    rewrite !andb_false_r, H. eexists. split; [reflexivity|].
    now apply lowered_trim, lowered_removeFirst.
  - destruct (String.eqb_spec b "done") as [E|_]; [rewrite E in H; discriminate|].
    destruct (String.eqb_spec b "cancel") as [E|_]; [rewrite E in H; discriminate|].
    rewrite !andb_false_r.
    destruct (Js.startsWith b "done #") eqn:D.
    { destruct b as [|[[] [] [] [] [] [] [] []] b']; discriminate. }
    rewrite H. eexists. split; [reflexivity|].
    now apply lowered_trim, lowered_removeFirst.
Qed.

(** What the code does where C8 asks for the id as the sender wrote it:
    the body is put in lower case before the id is cut out of it, so the
    command for order ORD20240115042 looks for ord20240115042, which the
    store does not hold, and the order stays pending; the same for a
    cancellation. *)
Theorem done_command_lowers_order_id :
  let rider := Contact false (Some "Rider") "2348030000000" in
  let done := Message "done #ORD20240115042" None in
  let cancel := Message "cancel #ORD20240115042" None in
  (forall w : world,
      handleDeliveryGroupMessage done rider w
      = markOrderAsDelivered "ord20240115042" "Rider" w)
  /\ (forall w : world,
         handleDeliveryGroupMessage cancel rider w
         = cancelOrder "ord20240115042" "Rider" w)
  /\ deliveryGroup (handleDeliveryGroupMessage done rider Samples.storedWorld)
     = [NotFound "ord20240115042"]
  /\ deliveryGroup (handleDeliveryGroupMessage cancel rider Samples.storedWorld)
     = [NotFound "ord20240115042"]
  /\ status <$> orders (db Samples.storedWorld) !! "ORD20240115042" = Some "pending"
  /\ status <$> orders (db (handleDeliveryGroupMessage done rider Samples.storedWorld))
                  !! "ORD20240115042" = Some "pending"
  /\ deliveryGroup (markOrderAsDelivered "ORD20240115042" "Rider" Samples.storedWorld)
     = [MarkedDelivered "ORD20240115042" "Rider"].
Proof.
  cbv zeta. repeat split; try (intros w; reflexivity); vm_compute; reflexivity.
Qed.

(** A request run alone is the handler of the source. *)
Lemma run_Deliver (orderId deliveryPerson : string) (w : world) :
  run 4 (Deliver orderId deliveryPerson) w
  = markOrderAsDelivered orderId deliveryPerson w.
Proof.
  unfold markOrderAsDelivered, updateOrderStatus. cbn [run step].
  destruct (getOrderById orderId (db w)) as [[[o|]|e] d1]; cbn; try reflexivity.
  destruct (String.eqb (status o) "delivered"); cbn; [reflexivity|].
  destruct (String.eqb (status o) "cancelled"); cbn; [reflexivity|].
  destruct (updateRow orderId "delivered" (Some deliveryPerson) d1) as [[row|e] d2];
    cbn; [|reflexivity].
  change ("Status changed to " +:+ "delivered") with "Status changed to delivered".
  destruct (addOrderHistory orderId "delivered" deliveryPerson
              "Status changed to delivered" d2) as [[u|e] d3]; reflexivity.
Qed.

Lemma run_Cancel (orderId cancelledBy : string) (w : world) :
  run 4 (Cancel orderId cancelledBy) w = cancelOrder orderId cancelledBy w.
Proof.
  unfold cancelOrder, updateOrderStatus. cbn [run step].
  destruct (getOrderById orderId (db w)) as [[[o|]|e] d1]; cbn; try reflexivity.
  destruct (String.eqb (status o) "cancelled"); cbn; [reflexivity|].
  destruct (String.eqb (status o) "delivered"); cbn; [reflexivity|].
  destruct (updateRow orderId "cancelled" None d1) as [[row|e] d2];
    cbn; [|reflexivity].
  change ("Status changed to " +:+ "cancelled") with "Status changed to cancelled".
  destruct (addOrderHistory orderId "cancelled" cancelledBy
              "Status changed to cancelled" d2) as [[u|e] d3]; reflexivity.
Qed.

Lemma step_Deliver_pending (orderId who : string) (d : database)
      (g : list reply) (o : order) :
  faults d = [] ->
  orders d !! orderId = Some o ->
  status o = "pending" ->
  step (Deliver orderId who) (World d g)
  = (DeliverUpdate orderId who,
     World (Database (orders d) (order_history d) (S (clock d)) []) g).
Proof.
  intros Hf Ho Hs. destruct d as [os hs c fs]. simpl in *. subst fs.
  unfold step, getOrderById, query; simpl; rewrite Ho; simpl.
  rewrite Hs; reflexivity.
Qed.

Lemma step_Cancel_pending (orderId who : string) (d : database)
      (g : list reply) (o : order) :
  faults d = [] ->
  orders d !! orderId = Some o ->
  status o = "pending" ->
  step (Cancel orderId who) (World d g)
  = (CancelUpdate orderId who,
     World (Database (orders d) (order_history d) (S (clock d)) []) g).
Proof.
  intros Hf Ho Hs. destruct d as [os hs c fs]. simpl in *. subst fs.
  unfold step, getOrderById, query; simpl; rewrite Ho; simpl.
  rewrite Hs; reflexivity.
Qed.

Lemma step_DeliverUpdate (orderId who : string) (d : database) (g : list reply)
      (o : order) :
  faults d = [] ->
  orders d !! orderId = Some o ->
  step (DeliverUpdate orderId who) (World d g)
  = (DeliverHistory orderId who,
     World (Database
              (<[orderId := deliveredRow o "delivered" (Some who) (S (clock d))]> (orders d))
              (order_history d) (S (clock d)) []) g).
Proof.
  intros Hf Ho. destruct d as [os hs c fs]. simpl in *. subst fs.
  unfold step, updateRow, query. simpl. unfold updateWhere. simpl. rewrite Ho.
  reflexivity.
Qed.

Lemma step_CancelUpdate (orderId who : string) (d : database) (g : list reply)
      (o : order) :
  faults d = [] ->
  orders d !! orderId = Some o ->
  step (CancelUpdate orderId who) (World d g)
  = (CancelHistory orderId who,
     World (Database
              (<[orderId := cancelledRow o "cancelled" (S (clock d))]> (orders d))
              (order_history d) (S (clock d)) []) g).
Proof.
  intros Hf Ho. destruct d as [os hs c fs]. simpl in *. subst fs.
  unfold step, updateRow, query. simpl. unfold updateWhere. simpl. rewrite Ho.
  reflexivity.
Qed.

Local Arguments step : simpl never.

(** What the code does where C9 asks for one winner: a delivery and a
    cancellation of the same pending order, interleaved at their awaited
    calls, both read the order as pending and both write; both report
    success, both history entries are written, and the cancellation
    overwrites the status of the delivery, whose delivery person and
    delivery time stay in the row. *)
Theorem concurrent_transitions_both_succeed
        (orderId deliveryPerson cancelledBy : string) (w : world) (o : order) :
  faults (db w) = [] ->
  orders (db w) !! orderId = Some o ->
  status o = "pending" ->
  let after := interleave [0; 1; 0; 1; 0; 1; 0; 1]
                 [Deliver orderId deliveryPerson; Cancel orderId cancelledBy] w in
  fst after = [Finished; Finished]
  /\ deliveryGroup (snd after)
     = deliveryGroup w
       ++ [MarkedDelivered orderId deliveryPerson; OrderCancelled orderId cancelledBy]
  /\ succeeded (MarkedDelivered orderId deliveryPerson) = true
  /\ succeeded (OrderCancelled orderId cancelledBy) = true
  /\ map history_status (order_history (db (snd after)))
     = map history_status (order_history (db w)) ++ ["delivered"; "cancelled"]
  /\ exists row : order,
       orders (db (snd after)) !! orderId = Some row
       /\ status row = "cancelled"
       /\ delivery_person row = Some deliveryPerson
       /\ is_Some (delivered_at row)
       /\ is_Some (cancelled_at row).
Proof.
  intros Hf Ho Hs. destruct w as [d g]. simpl in Hf, Ho. cbv zeta.
  simpl interleave.
  erewrite step_Deliver_pending by eassumption. simpl.
  erewrite step_Cancel_pending by (try reflexivity; eassumption). simpl.
  erewrite step_DeliverUpdate by (try reflexivity; eassumption). simpl.
  erewrite step_CancelUpdate by (try reflexivity; simpl; apply lookup_insert_eq).
  simpl.
  split; [reflexivity|]. split; [now rewrite <- app_assoc|].
  split; [reflexivity|]. split; [reflexivity|].
  split; [now rewrite !map_app, <- app_assoc|].
  rewrite lookup_insert_eq. eexists. split; [reflexivity|]. simpl.
  repeat split; eauto.
Qed.

Lemma concurrent_transitions_both_succeed_witness :
  deliveryGroup
    (snd (interleave [0; 1; 0; 1; 0; 1; 0; 1]
            [Deliver Samples.orderId "Rider"; Cancel Samples.orderId "Boss"]
            Samples.storedWorld))
  = [MarkedDelivered Samples.orderId "Rider"; OrderCancelled Samples.orderId "Boss"].
Proof.
  eapply (concurrent_transitions_both_succeed Samples.orderId "Rider" "Boss"
            Samples.storedWorld);
    [reflexivity | vm_compute; reflexivity | reflexivity].
Defined.

(** Run one after the other, the second request is refused. *)
Example sequential_transitions_one_winner :
  deliveryGroup
    (snd (interleave [0; 0; 0; 0; 1; 1; 1; 1]
            [Deliver Samples.orderId "Rider"; Cancel Samples.orderId "Boss"]
            Samples.storedWorld))
  = [MarkedDelivered Samples.orderId "Rider"; CannotCancelDelivered Samples.orderId].
Proof. vm_compute. reflexivity. Qed.

End Commands.

(** ** The patterns on sample lines *)

Section PatternSamples.
Import Regex OrderParser.

Example namePatterns_samples :
  map (fun l => map (fun p => test p l) namePatterns)
    ["Amaka Obi"; "Amaka"; "A"; "Amaka 1"; "Jollof rice and chicken stew"]
  = [[true; true]; [true; false]; [false; false]; [false; false]; [true; true]].
Proof. vm_compute. reflexivity. Qed.

Example addressPatterns_samples :
  map (fun l => map (fun p => test p l) addressPatterns)
    ["12 Allen Avenue"; "No. 5 Ikeja"; "plot 7, GRA"; "somewhere far away from here"]
  = [[true; false; true; false]; [false; true; true; false];
     [false; false; true; false]; [false; false; false; true]].
Proof. vm_compute. reflexivity. Qed.

Example itemPatterns_samples :
  map (fun l => map (fun p => test p l) itemPatterns)
    ["2x Jollof rice"; "3 plates"; "Cake"; "bread"]
  = [[true; false; true]; [false; true; true]; [true; false; false];
     [false; false; false]].
Proof. vm_compute. reflexivity. Qed.

Example datePatterns_samples :
  map (fun l => map (fun p => test p l) datePatterns)
    ["15/03/2024"; "1-2-2024"; "2024-03-15"; "TODAY please"; "next Friday"; "12/3/24"]
  = [[true; false; false; false; false]; [false; true; false; false; false];
     [false; false; true; false; false]; [false; false; false; true; false];
     [false; false; false; false; true]; [false; false; false; false; false]].
Proof. vm_compute. reflexivity. Qed.

End PatternSamples.

(** ** The parser never throws and fills what it accepts *)

Section ParserFacts.
Import Completion OrderParser.

Lemma trimEnd_idempotent (s : string) : Js.trimEnd (Js.trimEnd s) = Js.trimEnd s.
Proof.
induction s as [|c s IH]; [reflexivity|].
simpl. destruct (Js.trimEnd s) as [|a t] eqn:E.
- destruct (Js.isSpace c) eqn:Ec; [reflexivity|]. simpl. now rewrite Ec.
- change (Js.trimEnd (String c (String a t))) with
    (match Js.trimEnd (String a t) with
     | EmptyString => if Js.isSpace c then EmptyString else String c EmptyString
     | u => String c u
     end).
  rewrite IH. reflexivity.
Qed.

Lemma trimStart_head (s : string) :
match Js.trimStart s with
| EmptyString => True
| String c _ => Js.isSpace c = false
end.
Proof.
induction s as [|c s IH]; simpl; [exact I|].
destruct (Js.isSpace c) eqn:E; [exact IH|exact E].
Qed.

Lemma trim_idempotent (s : string) : Js.trim (Js.trim s) = Js.trim s.
Proof.
unfold Js.trim. pose proof (trimStart_head s) as H.
destruct (Js.trimStart s) as [|c y]; [reflexivity|].
assert (E : exists t, Js.trimEnd (String c y) = String c t).
{ simpl. destruct (Js.trimEnd y); [rewrite H|]; eauto. }
destruct E as [t E]. rewrite E. simpl Js.trimStart. rewrite H.
rewrite <- E. apply trimEnd_idempotent.
Qed.

Lemma lowerChar_colon (c : ascii) :
Ascii.eqb ":" (Js.lowerChar c) = Ascii.eqb ":" c.
Proof. destruct c as [[] [] [] [] [] [] [] []]; reflexivity. Qed.

Lemma split_not_nil (sep : ascii) (s : string) : Js.split sep s <> [].
Proof.
induction s as [|c s IH]; simpl; [discriminate|].
destruct (Ascii.eqb c sep); [discriminate|].
destruct (Js.split sep s); discriminate.
Qed.

Lemma includes_colon_cons (a : ascii) (s : string) :
Js.includes (String a s) ":" = Ascii.eqb ":" a || Js.includes s ":".
Proof.
change (Js.includes (String a s) ":")
  with ((Ascii.eqb ":" a && true) || Js.includes s ":").
now rewrite andb_true_r.
Qed.

Lemma split_second_piece (s : string) :
Js.includes (Js.toLowerCase s) ":" = true ->
exists piece, nth_error (Js.split ":" s) 1 = Some piece.
Proof.
induction s as [|c s IH]; [discriminate|].
cbn [Js.toLowerCase]. rewrite includes_colon_cons, lowerChar_colon.
cbn [Js.split]. rewrite (Ascii.eqb_sym ":" c).
destruct (Ascii.eqb c ":") eqn:E.
- intros _. pose proof (split_not_nil ":" s).
  destruct (Js.split ":" s) as [|w ws]; [congruence|]. simpl. eauto.
- simpl orb. intros H. destruct (IH H) as [piece Hp].
  destruct (Js.split ":" s) as [|w ws]; [discriminate|]. simpl in *. eauto.
Qed.

Lemma fieldTrimmed_None : fieldTrimmed None.
Proof. intros v H. discriminate. Qed.

Lemma fieldTrimmed_trim (s : string) : fieldTrimmed (Some (Js.trim s)).
Proof. intros v H. injection H as <-. apply trim_idempotent. Qed.

Lemma noFields_trimmed : textFields fieldTrimmed noFields.
Proof. repeat split; apply fieldTrimmed_None. Qed.

Lemma afterColon_normal (line : string) :
Js.includes (Js.toLowerCase line) ":" = true ->
exists piece, afterColon line = Normal (Js.trim piece).
Proof.
intros H. destruct (split_second_piece line H) as [piece Hp].
exists piece. unfold afterColon. now rewrite Hp.
Qed.

Ltac fields_done :=
solve [eexists; split; [reflexivity|];
       unfold textFields;
       cbn [customerName phoneNumber address items setCustomerName
            setPhoneNumber setAddress setItems setDeliveryDate];
       repeat apply conj;
       auto using fieldTrimmed_trim].

Lemma labeledLine_normal (m : Moment) (result : fields) (line : string) :
textFields fieldTrimmed result ->
exists r, labeledLine m result line = Normal r /\ textFields fieldTrimmed r.
Proof.
intros (Hn & Hp & Ha & Hi). unfold labeledLine.
destruct (Js.startsWith (Js.toLowerCase line) "name:"); [fields_done|].
destruct (Js.includes (Js.toLowerCase line) "phone"
          && Js.includes (Js.toLowerCase line) ":") eqn:E1.
{ apply andb_true_iff in E1 as [_ E1].
  destruct (afterColon_normal line E1) as [piece ->]. cbn [bind]. fields_done. }
destruct (Js.startsWith (Js.toLowerCase line) "address:"); [fields_done|].
destruct (Js.includes (Js.toLowerCase line) "item"
          && Js.includes (Js.toLowerCase line) ":") eqn:E2.
{ apply andb_true_iff in E2 as [_ E2].
  destruct (afterColon_normal line E2) as [piece ->]. cbn [bind]. fields_done. }
destruct (isDateString line); fields_done.
Qed.

Lemma labeledLoop_normal (m : Moment) (lines : list string) :
forall result : fields,
  textFields fieldTrimmed result ->
  exists r, labeledLoop m result lines = Normal r /\ textFields fieldTrimmed r.
Proof.
induction lines as [|line rest IH]; intros result H; simpl.
- eauto.
- destruct (labeledLine_normal m result line H) as (r & -> & Hr). simpl. auto.
Qed.

Lemma parseLabeledFormat_normal (m : Moment) (lines : list string) :
exists r, parseLabeledFormat m lines = Normal r /\ textFields fieldTrimmed r.
Proof. apply labeledLoop_normal, noFields_trimmed. Qed.

Lemma insertByConfidence_In (x y : candidate) (l : list candidate) :
In y (insertByConfidence x l) -> y = x \/ In y l.
Proof.
induction l as [|z l IH]; simpl.
- intros [H|[]]; auto.
- destruct (maxScore x <? maxScore z); simpl; intuition.
Qed.

Lemma sortByConfidence_In (y : candidate) (l : list candidate) :
In y (sortByConfidence l) -> In y l.
Proof.
induction l as [|x l IH]; simpl; [tauto|].
intros H. apply insertByConfidence_In in H. intuition.
Qed.

Lemma fieldFrom_None (L : list string) : fieldFrom L None.
Proof. intros v H. discriminate. Qed.

Lemma fieldFrom_Some (L : list string) (v : string) : In v L -> fieldFrom L (Some v).
Proof. intros H w E. now injection E as <-. Qed.

Lemma fieldFrom_nth (L U : list string) (i : nat) :
(forall v, In v U -> In v L) -> fieldFrom L (nth_error U i).
Proof. intros H v E. apply H. eapply nth_error_In, E. Qed.

Ltac three_done :=
solve [unfold threeFrom in *;
       cbn [fst customerName phoneNumber address items setCustomerName
            setPhoneNumber setAddress setItems setDeliveryDate] in *;
       intuition auto using fieldFrom_None, fieldFrom_Some, fieldFrom_nth].

Lemma assignBest_from (L : list string) (st : fields * assignedFlags) (c : candidate) :
In (line c) L -> threeFrom L (fst st) -> threeFrom L (fst (assignBest st c)).
Proof.
intros Hc H. destruct st as [result assigned]. unfold assignBest.
destruct (bestType c);
  [destruct (nameAssigned assigned)
  |destruct (addressAssigned assigned)
  |destruct (itemsAssigned assigned)]; cbn [negb]; three_done.
Qed.

Lemma assignLoop_from (L : list string) (cands : list candidate) :
(forall c, In c cands -> In (line c) L) ->
forall st, threeFrom L (fst st) -> threeFrom L (fst (fold_left assignBest cands st)).
Proof.
induction cands as [|c cands IH]; intros Hc st H; simpl; [exact H|].
apply IH; [intros; apply Hc; now right|].
apply assignBest_from; [apply Hc; now left|exact H].
Qed.

Lemma candidates_from (lines : list string) (c : candidate) :
In c (sortByConfidence
        (map (fun p => candidateOf (fst p) (snd p))
           (combine (seq 0 (length lines)) lines))) ->
In (line c) lines.
Proof.
intros H. apply sortByConfidence_In, in_map_iff in H.
destruct H as ([i l] & <- & H). apply in_combine_r in H. exact H.
Qed.

Lemma assignRemainingFields_from (lines : list string) :
threeFrom lines (assignRemainingFields lines).
Proof.
unfold assignRemainingFields.
pose proof (assignLoop_from lines _ (candidates_from lines)
              (noFields, Assigned false false false)) as H.
destruct (fold_left assignBest _ _) as [result assigned].
specialize (H ltac:(three_done)). cbn [fst] in H.
set (U := List.filter _ lines).
assert (HU : forall v, In v U -> In v lines)
  by (intros v Hv; apply filter_In in Hv; tauto).
clearbody U.
repeat match goal with
       | |- context [if ?b then _ else _] => destruct b
       end; three_done.
Qed.

Ltac text_done :=
solve [unfold textFields in *;
       cbn [fst customerName phoneNumber address items setCustomerName
            setPhoneNumber setAddress setItems setDeliveryDate noFields] in *;
       intuition auto using fieldTrimmed_None, fieldTrimmed_trim].

Lemma fieldFrom_trimmed (L : list string) (o : option string) :
(forall v, In v L -> Js.trim v = v) -> fieldFrom L o -> fieldTrimmed o.
Proof. intros HL H v E. apply HL, H, E. Qed.

Lemma takeAssignments_trimmed (L : list string) (a result : fields) :
(forall v, In v L -> Js.trim v = v) ->
threeFrom L a ->
textFields fieldTrimmed result ->
textFields fieldTrimmed (takeAssignments a result).
Proof.
intros HL (Hn & Ha & Hi) H. unfold takeAssignments.
apply (fieldFrom_trimmed L _ HL) in Hn, Ha, Hi.
destruct (truthy (customerName a)), (truthy (address a)), (truthy (items a));
  text_done.
Qed.

Lemma dateLoop_trimmed (m : Moment) (entries : list (nat * string)) :
forall st, textFields fieldTrimmed (fst st) ->
           textFields fieldTrimmed (fst (fold_left (dateStep m) entries st)).
Proof.
induction entries as [|[i l] entries IH]; intros [result used] H; simpl; [exact H|].
apply IH.
destruct (isDateString l && negb (bool_decide (i ∈ used))); text_done.
Qed.

Lemma usedByPhoneAndDate_trimmed (m : Moment) (lines : list string) :
textFields fieldTrimmed (fst (usedByPhoneAndDate m lines)).
Proof.
unfold usedByPhoneAndDate. apply dateLoop_trimmed.
destruct (List.filter _ _) as [|first rest]; text_done.
Qed.

Lemma remainingLines_In (m : Moment) (lines : list string) (v : string) :
In v (remainingLines m lines) -> In v lines.
Proof.
unfold remainingLines. intros H. apply in_map_iff in H.
destruct H as ([i l] & <- & H). apply filter_In in H as [H _].
apply in_combine_r in H. exact H.
Qed.

Lemma parseUnlabeledFormat_trimmed (m : Moment) (lines : list string) :
(forall v, In v lines -> Js.trim v = v) ->
textFields fieldTrimmed (parseUnlabeledFormat m lines).
Proof.
intros HL. unfold parseUnlabeledFormat.
pose proof (usedByPhoneAndDate_trimmed m lines) as Hr.
assert (HR : forall v, In v (remainingLines m lines) -> Js.trim v = v)
  by (intros v Hv; apply HL, (remainingLines_In m), Hv).
assert (Hscored : textFields fieldTrimmed
                    (takeAssignments (assignRemainingFields (remainingLines m lines))
                       (fst (usedByPhoneAndDate m lines))))
  by (eapply takeAssignments_trimmed; eauto using assignRemainingFields_from).
assert (Hnth : forall i, fieldTrimmed (nth_error (remainingLines m lines) i))
  by (intros i v E; apply HR; eapply nth_error_In, E).
repeat match goal with
       | |- context [if ?b then _ else _] => destruct b
       end; auto; text_done.
Qed.

Lemma truthy_string (v : string) : Js.truthy v = true <-> v <> EmptyString.
Proof. destruct v; simpl; split; congruence. Qed.

Lemma messageLines_filled (messageBody v : string) :
In v (messageLines messageBody) -> filled v.
Proof.
unfold messageLines. intros H. apply filter_In in H as [H Ht].
apply in_map_iff in H as (x & <- & _).
split; [now apply truthy_string|apply trim_idempotent].
Qed.

Lemma fromLabeled_filled (o : option string) :
fieldTrimmed o -> fieldFilled (fromLabeled o).
Proof.
intros H v E. unfold fromLabeled in E.
destruct (truthy o) eqn:T; [|discriminate]. subst o.
split; [now apply truthy_string|now apply H].
Qed.

Lemma fromUnlabeled_filled (current o : option string) :
fieldFilled current -> fieldTrimmed o -> fieldFilled (fromUnlabeled current o).
Proof.
intros Hc H v E. unfold fromUnlabeled in E.
destruct (negb (truthy current) && truthy o) eqn:T; [|now apply Hc].
apply andb_true_iff in T as [_ T]. subst o.
split; [now apply truthy_string|now apply H].
Qed.

Lemma mergeFields_filled (m : Moment) (lines : list string) (labeledData : fields) :
(forall v, In v lines -> Js.trim v = v) ->
textFields fieldTrimmed labeledData ->
textFields fieldFilled (mergeFields m lines labeledData).
Proof.
intros HL (Hn & Hp & Ha & Hi). unfold mergeFields.
destruct (parseUnlabeledFormat_trimmed m lines HL) as (Un & Up & Ua & Ui).
destruct (incomplete _); unfold textFields;
  cbn [customerName phoneNumber address items];
  repeat apply conj; auto using fromLabeled_filled, fromUnlabeled_filled.
Qed.

Lemma filled_truthy (o : option string) :
fieldFilled o -> truthy o = match o with Some _ => true | None => false end.
Proof.
intros H. destruct o as [v|]; [|reflexivity]. simpl.
apply truthy_string, (H v eq_refl).
Qed.

(** C6: [parseOrder] never throws: its body completes normally on every
  message.  It returns no order exactly when the message has fewer than
  three non-empty trimmed lines or when, after the merge of the labeled and
  the heuristic results, one of customer name, phone number, address and
  items is still null.  The delivery date plays no part in the rejection,
  and the four required fields of an accepted draft are not empty and
  carry no white space around them. *)
Theorem parseOrder_rejects_exactly_incomplete :
forall (m : Moment) (messageBody senderName : string),
  exists labeledData : fields,
    parseLabeledFormat m (messageLines messageBody) = Normal labeledData
    /\ threw (parseOrderTry m messageBody senderName) = false
    /\ (parseOrder m messageBody senderName = None
        <-> length (messageLines messageBody) < 3
            \/ customerName (mergeFields m (messageLines messageBody) labeledData) = None
            \/ phoneNumber (mergeFields m (messageLines messageBody) labeledData) = None
            \/ address (mergeFields m (messageLines messageBody) labeledData) = None
            \/ items (mergeFields m (messageLines messageBody) labeledData) = None)
    /\ (forall d : draft,
           parseOrder m messageBody senderName = Some d ->
           filled (draftName d) /\ filled (draftPhone d)
           /\ filled (draftAddress d) /\ filled (draftItems d)
           /\ draftDate d
              = deliveryDate (mergeFields m (messageLines messageBody) labeledData)).
Proof.
intros m messageBody senderName.
destruct (parseLabeledFormat_normal m (messageLines messageBody)) as (lab & E & Hlab).
exists lab. split; [exact E|].
assert (HL : forall v, In v (messageLines messageBody) -> Js.trim v = v)
  by (intros v Hv; apply (messageLines_filled messageBody v Hv)).
destruct (mergeFields_filled m _ lab HL Hlab) as (Fn & Fp & Fa & Fi).
unfold parseOrder, parseOrderTry. rewrite E. cbn [bind].
unfold incomplete.
rewrite (filled_truthy _ Fn), (filled_truthy _ Fp), (filled_truthy _ Fa),
  (filled_truthy _ Fi).
set (merged := mergeFields m (messageLines messageBody) lab) in *.
destruct (Nat.ltb_spec (length (messageLines messageBody)) 3) as [L|L].
{ split; [reflexivity|]. split; [tauto|discriminate]. }
destruct (customerName merged) as [a|] eqn:Ea;
  [|split; [reflexivity|]; split; [tauto|discriminate]].
destruct (phoneNumber merged) as [b|] eqn:Eb;
  [|split; [reflexivity|]; split; [tauto|discriminate]].
destruct (address merged) as [c|] eqn:Ec;
  [|split; [reflexivity|]; split; [tauto|discriminate]].
destruct (items merged) as [i|] eqn:Ei;
  [|split; [reflexivity|]; split; [tauto|discriminate]].
cbn [negb orb threw].
split; [reflexivity|]. split.
- split; [discriminate|]. intros [H|[H|[H|[H|H]]]]; [lia|discriminate..].
- intros d Hd. injection Hd as <-. cbn [draftName draftPhone draftAddress draftItems draftDate].
  destruct (Fn a eq_refl) as [? Ta], (Fp b eq_refl) as [? Tb],
    (Fa c eq_refl) as [? Tc], (Fi i eq_refl) as [? Ti].
  rewrite Ta, Tb, Tc, Ti. unfold filled. repeat split; auto.
Qed.

(** A message without a date line is accepted, with no delivery date. *)
Example parseOrder_without_date :
parseOrder Samples.moment
  ("Name: Amaka Obi" +:+ String "010" "Phone: 08012345678"
   +:+ String "010" "Address: 12 Allen Avenue, Ikeja"
   +:+ String "010" "Items: 2x Jollof rice, 1 chicken") "Sales"
= Some (Draft "Amaka Obi" "08012345678" "12 Allen Avenue, Ikeja"
          "2x Jollof rice, 1 chicken" None "Sales").
Proof. vm_compute. reflexivity. Qed.

End ParserFacts.

(** ** Extraction *)

Section Extraction.
Import Completion OrderParser.

(** With three lines or more in the pool the fields are those of the
    scoring: the positional branch of the source is never reached. *)
Lemma parseUnlabeledFormat_scored (m : Moment) (lines : list string) :
  3 <= length (remainingLines m lines) ->
  parseUnlabeledFormat m lines
  = takeAssignments (assignRemainingFields (remainingLines m lines))
      (fst (usedByPhoneAndDate m lines)).
Proof.
  intros H. unfold parseUnlabeledFormat.
  destruct (Nat.leb_spec 3 (length (remainingLines m lines))); [reflexivity|lia].
Qed.

(** What the code does where C1 asks for the positional assignment: a
    pool of exactly three lines, a name, an address and the items, with no
    phone and no date line, is scored; the items line scores highest as a
    name and becomes the customer name, and the name line is left for the
    items; so is the message of four lines that has the phone number after
    the name. *)
Theorem three_remaining_lines_are_scored :
  forall m : Moment,
    remainingLines m Samples.threeLines = Samples.threeLines
    /\ length (remainingLines m Samples.threeLines) = 3
    /\ parseUnlabeledFormat m Samples.threeLines
       = Fields (Some "Jollof rice and chicken stew") None
           (Some "12 Allen Avenue") (Some "Amaka") None
    /\ customerName (parseUnlabeledFormat m Samples.threeLines)
       <> nth_error Samples.threeLines 0
    /\ items (parseUnlabeledFormat m Samples.threeLines)
       <> nth_error Samples.threeLines 2
    /\ remainingLines m (messageLines Samples.unlabeledMessage) = Samples.threeLines
    /\ parseOrder m Samples.unlabeledMessage "Sales"
       = Some (Draft "Jollof rice and chicken stew" "08012345678" "12 Allen Avenue"
                 "Amaka" None "Sales").
Proof.
  intros m.
  assert (E : parseUnlabeledFormat m Samples.threeLines
              = Fields (Some "Jollof rice and chicken stew") None
                  (Some "12 Allen Avenue") (Some "Amaka") None)
    by (vm_compute; reflexivity).
  rewrite E. repeat split; try (vm_compute; reflexivity); discriminate.
Qed.

Lemma split_without_colon (s : string) :
  Js.includes s ":" = false -> Js.split ":" s = [s].
Proof.
  induction s as [|c s IH]; [reflexivity|].
  rewrite includes_colon_cons. intros H. apply orb_false_iff in H as [Hc Hs].
  cbn [Js.split]. rewrite Ascii.eqb_sym, Hc, (IH Hs). reflexivity.
Qed.

(** On a line with one colon the value is the whole text after it. *)
Lemma afterColon_one_colon (line : string) :
  Js.includes line ":" = true ->
  Js.includes (restAfterFirstColon line) ":" = false ->
  afterColon line = Normal (textAfterFirstColon line).
Proof.
  unfold afterColon, textAfterFirstColon.
  induction line as [|c s IH]; [discriminate|].
  rewrite includes_colon_cons. cbn [Js.split restAfterFirstColon].
  rewrite (Ascii.eqb_sym ":" c).
  destruct (Ascii.eqb c ":").
  - intros _ H. rewrite (split_without_colon s H). reflexivity.
  - cbn [orb]. intros H1 H2. specialize (IH H1 H2).
    destruct (Js.split ":" s) as [|w ws]; [discriminate|]. exact IH.
Qed.

(** What the code does where C7 asks for the entire text after the first
    colon: the value of a phone or items line is the piece between the
    first colon and the second, so a second colon cuts it short; the name
    and address lines keep their whole remainder. *)
Theorem labeled_value_cut_at_second_colon :
  forall m : Moment,
    parseLabeledFormat m ["Items: rice: 2 plates"]
    = Normal (Fields None None None (Some "rice") None)
    /\ textAfterFirstColon "Items: rice: 2 plates" = "rice: 2 plates"
    /\ parseLabeledFormat m ["Phone: 0801 234 5678 ext: 9"]
       = Normal (Fields None (Some "0801 234 5678 ext") None None None)
    /\ textAfterFirstColon "Phone: 0801 234 5678 ext: 9" = "0801 234 5678 ext: 9"
    /\ parseLabeledFormat m ["Name: Amaka: Obi"; "Address: Flat 2: Allen Avenue"]
       = Normal (Fields (Some "Amaka: Obi") None (Some "Flat 2: Allen Avenue") None None).
Proof.
  intros m. repeat split; vm_compute; reflexivity.
Qed.

End Extraction.
